(** * nb-runner: the notebook cells and the example strategy, embedded in Rocq

    The repository is a set of Jupyter notebooks (backtest, live trading)
    that talk to a remote engine over HTTP, plus a strategy guide with an
    example strategy function.  This development embeds

    - the Python values the cells pass around (JSON payloads, responses),
    - the effects of a cell (requests sent, lines printed, files written,
      notebook globals assigned) as a state-and-exception monad,
    - the pandas operations the example strategy and [all_positions] use,

    and states the properties of the design specification over them. *)

From Stdlib Require Import ZArith QArith Qabs String Ascii List Lia Permutation Sorted.
From stdpp Require Import base option list strings sorting gmap pretty.

Set Warnings "-register-all".

Open Scope string_scope.
Open Scope list_scope.

(** ** Python values *)

Module Py.

(** The values that occur in the notebooks: what [json] decodes to, plus
    tuples.  A float is kept as the rational its decimal literal denotes;
    the cells never compute with floats, they only pass them on. *)
Inductive pyval : Type :=
| PNone
| PBool (b : bool)
| PInt (n : Z)
| PFloat (q : Q)
| PStr (s : string)
| PList (l : list pyval)
| PTuple (l : list pyval)
| PDict (d : list (string * pyval)).

(** Exceptions raised by the cells and by the library calls they make. *)
Inductive exn : Type :=
| ValueError (msg : string)
| KeyError (key : string)
| TypeError
| IndexError
| AttributeError
| FileNotFoundError (path : string)
| OSError (path : string)
| JSONDecodeError
| HTTPError (status : Z) (body : option pyval) (text : string)
| Timeout
| RequestException
| Unmodelled (what : string).

Inductive result (A : Type) : Type :=
| Ok (a : A)
| Raise (e : exn).
Arguments Ok {A} a.
Arguments Raise {A} e.

(** [Unmodelled] is not a Python exception: it marks an input on which the
    source goes on with library behaviour that is not embedded here. *)

#[global] Instance result_ret : MRet result := @Ok.
#[global] Instance result_bind : MBind result :=
  fun A B k r => match r with Ok a => k a | Raise e => Raise e end.

(** [bool(v)]: the truth value Python gives to [v] in [if v:] and [not v]. *)
Definition truthy (v : pyval) : bool :=
  match v with
  | PNone => false
  | PBool b => b
  | PInt n => negb (n =? 0)%Z
  | PFloat q => negb (Qeq_bool q 0)
  | PStr s => negb (String.eqb s "")
  | PList l | PTuple l => match l with [] => false | _ => true end
  | PDict d => match d with [] => false | _ => true end
  end.

(** A dict is an association list in insertion order; keys are unique in
    Python, so the first binding is the binding. *)
Fixpoint assoc (k : string) (d : list (string * pyval)) : option pyval :=
  match d with
  | [] => None
  | (k', v) :: d' => if String.eqb k k' then Some v else assoc k d'
  end.

(** [v[k]] with a string key. *)
Definition getitem (v : pyval) (k : string) : result pyval :=
  match v with
  | PDict d => match assoc k d with Some x => Ok x | None => Raise (KeyError k) end
  | _ => Raise TypeError
  end.

(** [v.get(k, default)]; only dicts have [get]. *)
Definition get (v : pyval) (k : string) (default : pyval) : result pyval :=
  match v with
  | PDict d => Ok (match assoc k d with Some x => x | None => default end)
  | _ => Raise AttributeError
  end.

(** [k in v] for a dict [v]. *)
Definition contains (v : pyval) (k : string) : result bool :=
  match v with
  | PDict d => Ok (match assoc k d with Some _ => true | None => false end)
  | PList _ | PTuple _ | PStr _ => Ok false
  | _ => Raise TypeError
  end.

(** [v[0]] with an integer index 0. *)
Definition getitem0 (v : pyval) : result pyval :=
  match v with
  | PList (x :: _) | PTuple (x :: _) => Ok x
  | PList [] | PTuple [] => Raise IndexError
  | PStr (String c _) => Ok (PStr (String c ""))
  | PStr "" => Raise IndexError
  | PDict _ => Raise (KeyError "0")
  | _ => Raise TypeError
  end.

(** [str.upper] on ASCII text: the letters a..z are mapped to A..Z, every
    other byte is kept. *)
Definition upper_ascii (c : ascii) : ascii :=
  let n := nat_of_ascii c in
  if (97 <=? n)%nat && (n <=? 122)%nat then ascii_of_nat (n - 32) else c.

Fixpoint upper (s : string) : string :=
  match s with
  | EmptyString => EmptyString
  | String c s' => String (upper_ascii c) (upper s')
  end.



(** [s.startswith('/')] and [s.endswith('/')]. *)
Definition startswith_sep (s : string) : bool :=
  match s with
  | String c _ => Ascii.eqb c "/"
  | EmptyString => false
  end.

Fixpoint endswith_sep (s : string) : bool :=
  match s with
  | EmptyString => false
  | String c EmptyString => Ascii.eqb c "/"
  | String _ s' => endswith_sep s'
  end.

(** [os.path.join(a, b)] of [posixpath]. *)
Definition os_path_join (a b : string) : string :=
  if startswith_sep b then b
  else if String.eqb a "" || endswith_sep a then a ++ b
  else a ++ "/" ++ b.

(** An f-string field [{v}] for [v] read from the environment:
    [os.getenv] gives [None] when the variable is unset. *)
Definition fmt_opt (v : option string) : string :=
  match v with
  | Some s => s
  | None => "None"
  end.

Definition of_opt (v : option string) : pyval :=
  match v with
  | Some s => PStr s
  | None => PNone
  end.

(** [f"{v}"] for the values whose text is plain: strings, ints, booleans
    and [None]; the text of floats and containers is not embedded. *)
Definition fstr (v : pyval) : result string :=
  match v with
  | PStr s => Ok s
  | PInt n => Ok (pretty n)
  | PBool b => Ok (if b then "True" else "False")
  | PNone => Ok "None"
  | _ => Raise (Unmodelled "str() of a float or a container")
  end.

End Py.
Export Py.

(** ** The effects of a notebook cell *)

Module Notebook.

(** One HTTP request as [requests.get], [requests.post] receive it. *)
Record Request : Type := {
  req_method : string;
  req_url : string;
  req_params : list (string * string);
  req_json : option pyval;
  req_file : option string
}.

(** What the cells read of a [requests.Response]; [json_body] is [None]
    when the body does not decode as JSON. *)
Record Response : Type := {
  status_code : Z;
  json_body : option pyval;
  text : string;
  content_type : option string
}.

(** A request gets a response, or [requests] raises [Timeout] or another
    [RequestException]. *)
Inductive outcome : Type :=
| Replied (r : Response)
| TimedOut
| Unreachable.

Record Datetime : Type := {
  year : nat; month : nat; day : nat; hour : nat; minute : nat
}.

(** One argument of a [print] call, or one piece of an f-string: literal
    text, or a value whose rendering is left to Python. *)
Inductive frag : Type :=
| FStr (s : string)
| FVal (v : pyval)
| FInt (n : Z)
| FJson (v : pyval)
| FExn (e : exn).

(** The world a cell runs in.  The first four fields are the environment
    (the remote engine, the clock, what the operating system permits);
    the others are the state the cell changes: requests sent and lines
    printed (oldest first), the file system, and the notebook global
    [session_id]. *)
Record World : Type := {
  server : Request -> outcome;
  now : Datetime;
  can_mkdir : string -> bool;
  can_write : string -> bool;
  sent : list Request;
  printed : list (list frag);
  dirs : gset string;
  files : gmap string string;
  session_id : option pyval
}.

Definition set_sent (f : list Request -> list Request) (w : World) : World :=
  {| server := server w; now := now w; can_mkdir := can_mkdir w;
     can_write := can_write w; sent := f (sent w); printed := printed w;
     dirs := dirs w; files := files w; session_id := session_id w |}.

Definition set_printed (f : list (list frag) -> list (list frag)) (w : World) : World :=
  {| server := server w; now := now w; can_mkdir := can_mkdir w;
     can_write := can_write w; sent := sent w; printed := f (printed w);
     dirs := dirs w; files := files w; session_id := session_id w |}.

Definition set_dirs (f : gset string -> gset string) (w : World) : World :=
  {| server := server w; now := now w; can_mkdir := can_mkdir w;
     can_write := can_write w; sent := sent w; printed := printed w;
     dirs := f (dirs w); files := files w; session_id := session_id w |}.

Definition set_files (f : gmap string string -> gmap string string) (w : World) : World :=
  {| server := server w; now := now w; can_mkdir := can_mkdir w;
     can_write := can_write w; sent := sent w; printed := printed w;
     dirs := dirs w; files := f (files w); session_id := session_id w |}.

Definition set_session_id (v : pyval) (w : World) : World :=
  {| server := server w; now := now w; can_mkdir := can_mkdir w;
     can_write := can_write w; sent := sent w; printed := printed w;
     dirs := dirs w; files := files w; session_id := Some v |}.

(** A cell is a computation that changes the world and returns or raises. *)
Definition M (A : Type) : Type := World -> result A * World.

Definition ret {A} (a : A) : M A := fun w => (Ok a, w).

Definition bind {A B} (m : M A) (k : A -> M B) : M B :=
  fun w => match m w with
           | (Ok a, w') => k a w'
           | (Raise e, w') => (Raise e, w')
           end.

Definition raise {A} (e : exn) : M A := fun w => (Raise e, w).

(** A pure library call that may raise. *)
Definition lift {A} (r : result A) : M A := fun w => (r, w).

(** [try: m  except: h]; a handler re-raises what its clauses do not name. *)
Definition try_except {A} (m : M A) (h : exn -> M A) : M A :=
  fun w => match m w with
           | (Ok a, w') => (Ok a, w')
           | (Raise e, w') => h e w'
           end.

(** The cells are written with stdpp's monad notation:
    [x ← m; k] runs [m], binds its value and goes on with [k]. *)
#[global] Instance cell_ret : MRet M := @ret.
#[global] Instance cell_bind : MBind M := fun A B k m => bind m k.

Definition print (l : list frag) : M unit :=
  fun w => (Ok tt, set_printed (fun p => p ++ [l]) w).

(** [requests.post] / [requests.get]: the request goes out, and the
    engine's outcome comes back. *)
Definition send (r : Request) : M Response :=
  fun w => let w' := set_sent (fun s => s ++ [r]) w in
           match server w r with
           | Replied resp => (Ok resp, w')
           | TimedOut => (Raise Timeout, w')
           | Unreachable => (Raise RequestException, w')
           end.

(** [response.json()]. *)
Definition response_json (r : Response) : M pyval :=
  match json_body r with
  | Some v => ret v
  | None => raise JSONDecodeError
  end.

(** [response.raise_for_status()]. *)
Definition raise_for_status (r : Response) : M unit :=
  if (400 <=? status_code r)%Z && (status_code r <? 600)%Z
  then raise (HTTPError (status_code r) (json_body r) (text r))
  else ret tt.

(** [os.path.exists], [os.makedirs], [open(p, 'rb').read()],
    [open(p, 'w')] and [f.write]. *)
Definition present (w : World) (p : string) : bool :=
  bool_decide (p ∈ dirs w) || bool_decide (is_Some (files w !! p)).

Definition path_exists (p : string) : M bool :=
  fun w => (Ok (present w p), w).

Definition makedirs (p : string) : M unit :=
  fun w => if can_mkdir w p then (Ok tt, set_dirs (fun d => {[p]} ∪ d) w)
           else (Raise (OSError p), w).

Definition read_file (p : string) : M string :=
  fun w => match files w !! p with
           | Some c => (Ok c, w)
           | None => (Raise (FileNotFoundError p), w)
           end.

Definition open_w (p : string) : M unit :=
  fun w => if can_write w p then (Ok tt, set_files (fun f => <[p := ""]> f) w)
           else (Raise (OSError p), w).

Definition write (p : string) (v : pyval) : M unit :=
  match v with
  | PStr s => fun w => (Ok tt, set_files (fun f => <[p := s]> f) w)
  | _ => raise TypeError
  end.

(** [datetime.strftime('%Y-%m-%d %H:%M')], for the years 1000..9999 that
    [datetime.now()] can give. *)
Definition digit (n : nat) : ascii := ascii_of_nat (48 + n mod 10).
Definition pad2 (n : nat) : string := String (digit (n / 10)) (String (digit n) "").
Definition pad4 (n : nat) : string :=
  String (digit (n / 1000)) (String (digit (n / 100)) (pad2 n)).

Definition strftime (t : Datetime) : string :=
  pad4 (year t) ++ "-" ++ pad2 (month t) ++ "-" ++ pad2 (day t)
  ++ " " ++ pad2 (hour t) ++ ":" ++ pad2 (minute t).

Definition datetime_now : M Datetime := fun w => (Ok (now w), w).

Definition nl : string := String (ascii_of_nat 10) "".

(** [v == s] for a string literal [s]. *)
Definition eq_str (v : pyval) (s : string) : bool :=
  match v with
  | PStr s' => String.eqb s' s
  | _ => false
  end.

(** A computation is [stable] for a relation between worlds when every run
    takes a world to a related one, whether it returns or raises. *)
Definition stable (R : relation World) {A} (m : M A) : Prop :=
  forall w, R w (m w).2.

(** The two relations used below: nothing was sent, no file was touched. *)
Definition same_sent : relation World := fun w w' => sent w' = sent w.
Definition same_fs : relation World :=
  fun w w' => files w' = files w /\ dirs w' = dirs w.

End Notebook.
Export Notebook.

(** ** pandas: the operations the sources use *)

Module Pandas.

(** A frame is its column labels and its rows; a row of a frame, or a
    column of values, is a [Series] of labelled values. *)
Record DataFrame (A : Type) : Type := {
  columns : list string;
  rows : list (list A)
}.
Arguments columns {A} _.
Arguments rows {A} _.

Abbreviation Series A := (list (string * A)).

(** Every row has one value per column. *)
Definition rectangular {A} (df : DataFrame A) : Prop :=
  Forall (fun r => length r = length (columns df)) (rows df).

(** [df.empty]: some axis has length 0. *)
Definition empty {A} (df : DataFrame A) : bool :=
  match columns df, rows df with
  | [], _ | _, [] => true
  | _, _ => false
  end.

(** [df.iloc[i]] for an integer [i]; negative [i] counts from the end. *)
Definition iloc {A} (df : DataFrame A) (i : Z) : result (Series A) :=
  let n := Z.of_nat (length (rows df)) in
  let j := if (i <? 0)%Z then (i + n)%Z else i in
  if (0 <=? j)%Z && (j <? n)%Z then
    match rows df !! Z.to_nat j with
    | Some r => Ok (zip (columns df) r)
    | None => Raise IndexError
    end
  else Raise IndexError.

(** Python slices [l[:n]] and [l[n:]]. *)
Definition slice_stop {A} (n : Z) (l : list A) : list A :=
  if (n <? 0)%Z then take (Z.to_nat (Z.of_nat (length l) + n)) l
  else take (Z.to_nat n) l.

Definition slice_start {A} (n : Z) (l : list A) : list A :=
  if (n <? 0)%Z then drop (Z.to_nat (Z.of_nat (length l) + n)) l
  else drop (Z.to_nat n) l.

(** [s.head(n)] is [s.iloc[:n]]; [s.tail(n)] is [s.iloc[-n:]], and empty
    for [n = 0]. *)
Definition head {A} (n : Z) (s : Series A) : Series A := slice_stop n s.

Definition tail {A} (n : Z) (s : Series A) : Series A :=
  if (n =? 0)%Z then [] else slice_start (- n) s.

(** [list(s.index)]. *)
Definition index {A} (s : Series A) : list string := fst <$> s.

(** [a / b] and [a - c] on series that carry the same index (two rows of
    one frame): value by value. *)
Definition series_div {A} (div : A -> A -> A) (a b : Series A) : Series A :=
  zip_with (fun x y => (fst x, div (snd x) (snd y))) a b.

Definition series_sub {A} (sub : A -> A -> A) (a : Series A) (c : A) : Series A :=
  (fun x => (fst x, sub (snd x) c)) <$> a.

(** [s.sort_values(ascending=False)]: by value, largest first.  Here equal
    values keep their order; pandas' default sort promises no order among
    them, and nothing below depends on it. *)
Definition desc {A} (geb : A -> A -> bool) (x y : string * A) : Prop :=
  geb (snd x) (snd y) = true.

#[global] Instance desc_dec {A} (geb : A -> A -> bool) : RelDecision (desc geb) :=
  fun x y => decide (geb (snd x) (snd y) = true).

Definition sort_values_desc {A} (geb : A -> A -> bool) (s : Series A) : Series A :=
  merge_sort (desc geb) s.

(** [pd.DataFrame(data)] for a list of records (dicts): the columns are
    the keys in the order they are first seen, a row holds a record's
    value for each column, [None] (NaN) where the record has no such key. *)
Fixpoint first_seen (seen ks : list string) : list string :=
  match ks with
  | [] => []
  | k :: ks' =>
      if bool_decide (k ∈ seen) then first_seen seen ks'
      else k :: first_seen (k :: seen) ks'
  end.

Definition from_records (recs : list (list (string * pyval))) : DataFrame (option pyval) :=
  let cols := first_seen [] (mjoin ((fun r : list (string * pyval) => fst <$> r) <$> recs)) in
  {| columns := cols;
     rows := (fun r => (fun c => assoc c r) <$> cols) <$> recs |}.

Definition as_record (v : pyval) : option (list (string * pyval)) :=
  match v with
  | PDict d => Some d
  | _ => None
  end.

(** [pd.DataFrame(data)] on decoded JSON: a list of objects gives the
    frame of these records and [None] the empty frame; the constructor's
    treatment of other shapes is not embedded. *)
Definition DataFrame_of (data : pyval) : result (DataFrame (option pyval)) :=
  match data with
  | PNone => Ok {| columns := []; rows := [] |}
  | PList l =>
      match mapM as_record l with
      | Some recs => Ok (from_records recs)
      | None => Raise (Unmodelled "pd.DataFrame of a list that holds non-dict items")
      end
  | _ => Raise (Unmodelled "pd.DataFrame of a scalar or a dict")
  end.

(** The cell of a frame at row [i] and column [c]. *)
Definition cell {A} (df : DataFrame A) (i : nat) (c : string) : option A :=
  r ← rows df !! i;
  j ← list_find (fun c' => c' = c) (columns df);
  r !! fst j.

End Pandas.
Export Pandas.

(** ** The example strategy of the strategy guide *)

Module Strategy.

(** An argument that must be an int ([head], [tail] refuse anything else,
    bools included). *)
Definition as_int (v : pyval) : result Z :=
  match v with
  | PInt n => Ok n
  | _ => Raise TypeError
  end.

(** [-v] as a row position: ints (and bools, which are ints) negate; a
    float negates too but is no position, and other values have no [-]. *)
Definition neg_position (v : pyval) : result Z :=
  match v with
  | PInt n => Ok (- n)%Z
  | PBool b => Ok (if b then -1 else 0)%Z
  | _ => Raise TypeError
  end.

Section example.

(** Prices are float64 in the source; the strategy only divides, subtracts
    one and compares them, so the arithmetic is a parameter. *)
Context {num : Type}.
Variable div : num -> num -> num.
Variable sub : num -> num -> num.
Variable one : num.
Variable geb : num -> num -> bool.

(** [df.iloc[-1] / df.iloc[-period] - 1]. *)
Definition simple_returns (last prev : Series num) : Series num :=
  series_sub sub (series_div div last prev) one.

Definition strategy (df : DataFrame num) (config_dict : pyval)
  : result (list string * list string) :=
  strategy_specific_config ← get config_dict "strategy_config" PNone;
  minutes ← get strategy_specific_config "minutes" PNone;
  period ← getitem0 minutes;
  maximum_candidates ← get strategy_specific_config "maximum_candidates" PNone;
  last ← iloc df (-1);
  position ← neg_position period;
  prev ← iloc df position;
  let returns := simple_returns last prev in
  let sorted_returns := sort_values_desc geb returns in
  k ← as_int maximum_candidates;
  Ok (index (head k sorted_returns), index (tail k sorted_returns)).

End example.

(** The configuration the strategy reads: [config_dict['strategy_config']]
    holds a list under "minutes" whose first item is the int [p], and the
    int [k] under "maximum_candidates". *)
Definition configured (config_dict : pyval) (p k : Z) : Prop :=
  exists sc m,
    get config_dict "strategy_config" PNone = Ok sc /\
    get sc "minutes" PNone = Ok m /\
    getitem0 m = Ok (PInt p) /\
    get sc "maximum_candidates" PNone = Ok (PInt k).

End Strategy.

(** ** The backtest notebook (notebooks/2.backtest.ipynb) *)

Module Backtest.

(** The notebook's globals, as the earlier cells leave them. *)
Record Vars : Type := {
  USER_KEY : option string;
  DATA_KEY : option string;
  tradeType : string;
  strategy_name : string;
  strategy_config_params : pyval;
  start_date_str : string;
  end_date_str : string;
  lookback_min : pyval;
  initial_capital : pyval;
  leverage : pyval;
  symbols : list string;
  calendar : string;
  frequency : string;
  weight_method : string;
  custom_weights : pyval;
  generate_report_flag : bool;
  path : string
}.

Definition root_url (v : Vars) : string :=
  "https://zipline.fin.cloud.ainode.ai/" ++ fmt_opt (USER_KEY v) ++ "/".

(** The [strategy_config_params] of the config cell, with the rebalancing
    interval [h] (the cell writes 72) and [hours = [1,3,6]]. *)
Definition config_cell_params (h : pyval) : pyval :=
  PDict [("rebalancing_config",
          PDict [("rebalancing_interval_hours", h);
                 ("minimum_candidates", PInt 0)]);
         ("strategy_config",
          PDict [("long_maximum_candidates", PInt 5);
                 ("short_maximum_candidates", PInt 5);
                 ("minutes", PList [PInt 60; PInt 180; PInt 360])])].

(** *** Cell: upload strategy file *)

Definition strategy_file_path (v : Vars) : string :=
  "/content/drive/MyDrive/NeoMatrixAI/" ++ strategy_name v ++ ".py".

Definition upload_request (v : Vars) (content : string) : Request :=
  {| req_method := "POST";
     req_url := root_url v ++ "upload/strategy/";
     req_params := [("tradeType", tradeType v)];
     req_json := None;
     req_file := Some content |}.

Definition upload_strategy (v : Vars) : M unit :=
  f ← read_file (strategy_file_path v);
  response ← send (upload_request v f);
  body ← response_json response;
  print [FStr "📂 Upload Response:"; FVal body].

(** *** Cell: run backtest *)

Definition request_payload (v : Vars) : list (string * pyval) :=
  [("data_apikey", of_opt (DATA_KEY v));
   ("strategy", PStr (strategy_name v ++ ".py"));
   ("strategy_config", strategy_config_params v);
   ("start_date", PStr (start_date_str v));
   ("end_date", PStr (end_date_str v));
   ("lookback_minutes", lookback_min v);
   ("capital", initial_capital v);
   ("leverage", leverage v);
   ("symbols", PList (PStr <$> symbols v));
   ("calendar", PStr (calendar v));
   ("frequency", PStr (frequency v));
   ("weight_method", PStr (weight_method v));
   ("generate_pyfolio_report", PBool (generate_report_flag v))].

(** "Add custom_weights if weight_method is custom". *)
Definition add_custom_weights (v : Vars) : M (list (string * pyval)) :=
  if String.eqb (weight_method v) "custom" then
    if negb (truthy (custom_weights v)) then
      raise (ValueError "custom_weights is required if weight_method is 'custom'")
    else ret (request_payload v ++ [("custom_weights", custom_weights v)])
  else ret (request_payload v).

Definition backtest_request (v : Vars) (payload : list (string * pyval)) : Request :=
  {| req_method := "POST";
     req_url := root_url v ++ "run/future/backtest/";
     req_params := [];
     req_json := Some (PDict payload);
     req_file := None |}.

Definition report_filename (v : Vars) (t : Datetime) : string :=
  os_path_join (path v)
    (strftime t ++ "_" ++ strategy_name v ++ "_backtest_report.html").

(** [html_content[:1000] + "..."] (bytes stand for characters). *)
Definition snippet (v : pyval) : result string :=
  match v with
  | PStr s => Ok (substring 0 1000 s ++ "...")%string
  | _ => Raise TypeError
  end.

(** The body of [if html_content:]. *)
Definition save_report (v : Vars) (html_content : pyval) : M unit :=
  ex ← path_exists (path v);
  (if negb ex then makedirs (path v) else ret tt);;
  t ← datetime_now;
  let name := report_filename v t in
  try_except
    (open_w name;;
     write name html_content;;
     print [FStr "HTML report received and saved successfully as '";
            FStr name; FStr "'."])
    (fun e =>
       print [FStr "ERROR: Failed to save received HTML report: "; FExn e];;
       print [FStr nl; FStr "--- Received HTML Content (Snippet) ---"];;
       s ← lift (snippet html_content);
       print [FStr s]).

(** The inner [try] block: decode the response and act on [report_type]. *)
Definition handle_result (v : Vars) (response : Response) : M unit :=
  result_data ← response_json response;
  report_type ← lift (get result_data "report_type" PNone);
  if eq_str report_type "html" then
    print [FStr "Report Type: HTML Report included."];;
    html_content ← lift (get result_data "html_content" PNone);
    logs ← lift (get result_data "logs" (PStr "No stderr logs received."));
    stdout_logs ← lift (get result_data "stdout" (PStr "No stdout received."));
    (if truthy html_content then save_report v html_content
     else print [FStr "WARN: Report type was 'html' but no HTML content found in response."]);;
    print [FStr nl; FStr "--- Execution Logs (stderr) ---"];;
    print [FVal logs];;
    (if truthy stdout_logs then
       print [FStr nl; FStr "--- Execution Output (stdout) ---"];;
       print [FVal stdout_logs]
     else ret tt)
  else if eq_str report_type "logs_only" then
    print [FStr "Report Type: Logs Only (Report generation skipped)."];;
    message ← lift (get result_data "message" PNone);
    print [FStr "Message: "; FVal message];;
    print [FStr nl; FStr "--- Execution Logs (stderr) ---"];;
    logs ← lift (get result_data "logs" (PStr "No stderr logs received."));
    print [FVal logs];;
    has_stdout ← lift (contains result_data "stdout");
    (if has_stdout : bool then
       print [FStr nl; FStr "--- Execution Output (stdout) ---"];;
       stdout_logs ← lift (get result_data "stdout" (PStr "No stdout received."));
       print [FVal stdout_logs]
     else ret tt)
  else
    print [FStr "WARN: Received successful response with unknown report_type: '";
           FVal report_type; FStr "'"];;
    print [FStr nl; FStr "--- Full JSON Response ---"];;
    print [FJson result_data].

(** [except json.JSONDecodeError:] of the inner [try]. *)
Definition on_decode_error (response : Response) (e : exn) : M unit :=
  match e with
  | JSONDecodeError =>
      print [FStr "ERROR: Failed to decode JSON response from successful API call."];;
      print [FStr "Content-Type: "; FStr (default "N/A" (content_type response))];;
      print [FStr nl; FStr "--- Received Raw Content (First 1000 chars) ---"];;
      print [FStr (substring 0 1000 (text response) ++ "...")%string]
  | _ => raise e
  end.

(** The [except] clauses of the outer [try], in their order. *)
Definition on_request_error (url : string) (e : exn) : M unit :=
  match e with
  | Timeout => print [FStr nl; FStr "--- API call failed: Timeout) ---"]
  | HTTPError status body txt =>
      print [FStr nl; FStr "--- API call failed: HTTP Error "; FInt status; FStr " ---"];;
      match body with
      | Some error_details =>
          print [FStr "Error details:"];;
          print [FJson error_details]
      | None =>
          print [FStr "Error response content (Non-JSON):"];;
          print [FStr txt]
      end
  | RequestException =>
      print [FStr nl; FStr "--- API call failure: Request Error ---"];;
      print [FStr "Error connecting to or requesting the API server (";
             FStr url; FStr "): "; FExn e]
  | _ =>
      print [FStr nl; FStr "--- Unexpected error occurred ---"];;
      print [FStr "Error type: "; FExn e; FStr ", Content: "; FExn e]
  end.

Definition run_backtest (v : Vars) : M unit :=
  payload ← add_custom_weights v;
  let request := backtest_request v payload in
  try_except
    (response ← send request;
     raise_for_status response;;
     print [FStr nl; FStr "--- Backtest execution successful (Status Code: ";
            FInt (status_code response); FStr ") ---"];;
     try_except (handle_result v response) (on_decode_error response))
    (on_request_error (req_url request)).

(** The notebook with another value assigned to [custom_weights]. *)
Definition with_custom_weights (cw : pyval) (v : Vars) : Vars :=
  {| USER_KEY := USER_KEY v;
     DATA_KEY := DATA_KEY v;
     tradeType := tradeType v;
     strategy_name := strategy_name v;
     strategy_config_params := strategy_config_params v;
     start_date_str := start_date_str v;
     end_date_str := end_date_str v;
     lookback_min := lookback_min v;
     initial_capital := initial_capital v;
     leverage := leverage v;
     symbols := symbols v;
     calendar := calendar v;
     frequency := frequency v;
     weight_method := weight_method v;
     custom_weights := cw;
     generate_report_flag := generate_report_flag v;
     path := path v |}.

(** A reply that is not an html report with content. *)
Definition no_report (resp : Response) : Prop :=
  forall d h,
    json_body resp = Some (PDict d) ->
    assoc "report_type" d = Some (PStr "html") ->
    assoc "html_content" d = Some h -> truthy h = false.

End Backtest.

(** ** The live-trading notebook (3.trade.ipynb) *)

Module Trade.

Record Vars : Type := {
  USER_KEY : option string;
  DATA_KEY : option string;
  strategy_name : string
}.

Definition root_url (v : Vars) : string :=
  "https://aifapbt.fin.cloud.ainode.ai/" ++ fmt_opt (USER_KEY v) ++ "/".

(** *** Cell: upload config file *)

Definition config_file_path (v : Vars) : string :=
  os_path_join "/content/drive/MyDrive/NeoMatrixAI/" (strategy_name v ++ "_config" ++ ".py").

Definition upload_config_request (v : Vars) (content : string) : Request :=
  {| req_method := "POST";
     req_url := root_url v ++ "upload/config/";
     req_params := [];
     req_json := None;
     req_file := Some content |}.

Definition upload_config (v : Vars) : M unit :=
  f ← read_file (config_file_path v);
  response ← send (upload_config_request v f);
  body ← response_json response;
  print [FStr "📂 Upload Response:"; FVal body].

(** *** Cell: run-system *)

Definition run_system_request (v : Vars) : Request :=
  {| req_method := "POST";
     req_url := root_url v ++ "command/run-system";
     req_params := [];
     req_json := Some (PDict [("strategy_name", PStr (strategy_name v));
                              ("method", PStr "rebalancing")]);
     req_file := None |}.

(** [response.json()[k1][k2]...]. *)
Definition json_item (response : Response) (keys : list string) : M pyval :=
  body ← response_json response;
  lift (foldl (fun r k => v ← r; getitem v k) (Ok body) keys).

Definition assign_session_id (v : pyval) : M unit :=
  fun w => (Ok tt, set_session_id v w).

Definition run_system (v : Vars) : M unit :=
  response ← send (run_system_request v);
  try_except
    (sid ← json_item response ["session_id"];
     assign_session_id sid;;
     sid' ← json_item response ["session_id"];
     print [FStr "session id :"; FVal sid'];;
     dashboard ← json_item response ["dashboard_url"];
     print [FStr "dashboard :"; FVal dashboard])
    (fun _ =>
       msg ← json_item response ["message"; "message"];
       print [FStr "Error :"; FVal msg];;
       sid ← json_item response ["message"; "session_id"];
       assign_session_id sid;;
       print [FStr "session id :"; FVal sid];;
       dashboard ← json_item response ["message"; "dashboard_url"];
       print [FStr "dashboard :"; FVal dashboard]).

(** *** Cell: confirm position holding after terminating *)

Definition positions_url (v : Vars) : string :=
  "https://bitgettrader.fin.cloud.ainode.ai/" ++ fmt_opt (USER_KEY v)
  ++ "/future/position/all-positions".

Definition positions_request (v : Vars) (productType marginCoin : string) : Request :=
  {| req_method := "POST";
     req_url := positions_url v;
     req_params := [];
     req_json := Some (PDict [("user_key", of_opt (USER_KEY v));
                              ("all_positions",
                               PDict [("productType", PStr productType);
                                      ("marginCoin", PStr (upper marginCoin))])]);
     req_file := None |}.

(** [all_positions(user_key, productType, marginCoin)]; [v] holds the
    notebook globals the body reads. *)
Definition all_positions (v : Vars) (user_key : pyval) (productType marginCoin : string)
  : M (DataFrame (option pyval)) :=
  response ← send (positions_request v productType marginCoin);
  data ← json_item response ["data"];
  df ← lift (DataFrame_of data);
  (if empty df then print [FStr "Everything has been liquidated"] else ret tt);;
  ret df.

(** The two shapes of the engine's reply to run-system that the cell
    reads: the session fields at the top level, or, when there are none at
    the top level, inside the error wrapper under "message", next to the
    error text the wrapper carries under its own "message". *)
Inductive run_reply : pyval -> pyval -> pyval -> Prop :=
| reply_flat d sid dashboard :
    assoc "session_id" d = Some sid ->
    assoc "dashboard_url" d = Some dashboard ->
    run_reply (PDict d) sid dashboard
| reply_nested d inner msg sid dashboard :
    assoc "session_id" d = None ->
    assoc "message" d = Some (PDict inner) ->
    assoc "message" inner = Some msg ->
    assoc "session_id" inner = Some sid ->
    assoc "dashboard_url" inner = Some dashboard ->
    run_reply (PDict d) sid dashboard.

(** [response.json()[k1][k2]...] on the decoded body. *)
Definition item (body : pyval) (keys : list string) : result pyval :=
  foldl (fun r k => v ← r; getitem v k) (Ok body) keys.

(** *** Cell: terminate *)

Definition terminate_request (v : Vars) (sid : string) : Request :=
  {| req_method := "GET";
     req_url := root_url v ++ "command/terminate/";
     req_params := [("session_id", sid)];
     req_json := None;
     req_file := None |}.

(** The terminate cell, for the value [session_id] that the notebook
    global holds when the cell runs. *)
Definition terminate (v : Vars) (session_id : pyval) : M unit :=
  sid ← lift (fstr session_id);
  response ← send (terminate_request v sid);
  body ← response_json response;
  print [FVal body].

End Trade.

(** ** The design specification's checks, in its own words *)

Module Spec.

(** A weight as a number: an int or a float, nothing else. *)
Definition number (v : pyval) : option Q :=
  match v with
  | PInt n => Some (inject_Z n)
  | PFloat q => Some q
  | _ => None
  end.

Definition total (ws : list Q) : Q := foldr Qplus 0%Q ws.

(** Spec 4.1, check 2: "custom_weights is present, every key is a member
    of the configured symbol universe, every value is a non-negative
    number, and the values sum to 1.0 within a small epsilon (1e-6)". *)
Definition custom_weights_ok (universe : list string) (custom_weights : pyval) : bool :=
  match custom_weights with
  | PDict d =>
      forallb (fun kv => bool_decide (fst kv ∈ universe)) d
      && match mapM (fun kv => number (snd kv)) d with
         | Some ws =>
             forallb (fun q => Qle_bool 0 q) ws
             && Qle_bool (Qabs (total ws - 1)) (1 # 1000000)
         | None => false
         end
  | _ => false
  end.

(** Spec 3: "rebalancing_interval_hours ∈ {6,12,24,72}". *)
Definition allowed_intervals : list Z := [6; 12; 24; 72]%Z.

Definition interval_ok (h : pyval) : bool :=
  match h with
  | PInt n => bool_decide (n ∈ allowed_intervals)
  | _ => false
  end.

(** Spec 4.3: "the callable's return value is a 2-tuple of sequences; all
    elements are members of the declared universe; the two sequences are
    disjoint". *)
Definition sequence (v : pyval) : option (list pyval) :=
  match v with
  | PList l | PTuple l => Some l
  | _ => None
  end.

Definition symbol_in (universe : list string) (v : pyval) : bool :=
  match v with
  | PStr s => bool_decide (s ∈ universe)
  | _ => false
  end.

Definition py_eqb_str (a b : pyval) : bool :=
  match a, b with
  | PStr s, PStr t => String.eqb s t
  | _, _ => false
  end.

Definition contract_ok (universe : list string) (returned : pyval) : bool :=
  match returned with
  | PTuple [longs; shorts] =>
      match sequence longs, sequence shorts with
      | Some l, Some s =>
          forallb (symbol_in universe) l && forallb (symbol_in universe) s
          && forallb (fun x => negb (existsb (py_eqb_str x) s)) l
      | _, _ => false
      end
  | _ => false
  end.

(** Modelled from the spec: the weight allocator runs in the remote engine
    and is not part of the notebooks; the sources only name the method in
    a comment, [equal(1/n)].  Spec 4.2: "equal: weight = 1 / |symbols|,
    uniform across all symbols in the universe".  Weights are exact
    rationals here. *)
Definition allocate_equal (symbols : list string) : list (string * Q) :=
  (fun s => (s, 1 / inject_Z (Z.of_nat (length symbols)))%Q) <$> symbols.

(** A strategy file together with what its [strategy] function returns
    when it is called. *)
Record Artifact : Type := {
  source : string;
  returned : pyval
}.

End Spec.

(** ** Sample inputs *)

Module Samples.

(** Exact rationals as prices: [a >= b]. *)
Definition qgeb (a b : Q) : bool := Qle_bool b a.

(** Three symbols over three minutes. *)
Definition prices : DataFrame Q :=
  {| columns := ["BTCUSDT"; "ETHUSDT"; "XRPUSDT"];
     rows := [[1; 2; 4]; [2; 2; 2]; [3; 2; 1]]%Q |}.

Definition strategy_config (k p : Z) : pyval :=
  PDict [("strategy_config",
          PDict [("maximum_candidates", PInt k);
                 ("minutes", PList [PInt p; PInt 180; PInt 360])])].

(** The [strategy_config] of the guide's own config.py template, wrapped
    as the guide says the system does: "minutes" is the int 60 * 12. *)
Definition guide_config : pyval :=
  PDict [("strategy_config",
          PDict [("maximum_candidates", PInt 5);
                 ("minutes", PInt 720)])].

(** The globals of the backtest notebook as its config cell sets them,
    for given [strategy_config_params] and [custom_weights]. *)
Definition backtest_vars (params custom_weights : pyval) : Backtest.Vars :=
  {| Backtest.USER_KEY := Some "user-key";
     Backtest.DATA_KEY := Some "data-key";
     Backtest.tradeType := "future";
     Backtest.strategy_name := "multi_period_momentum";
     Backtest.strategy_config_params := params;
     Backtest.start_date_str := "2025-03-10";
     Backtest.end_date_str := "2025-03-20";
     Backtest.lookback_min := PInt 360;
     Backtest.initial_capital := PInt 200000;
     Backtest.leverage := PInt 10;
     Backtest.symbols := ["BTCUSDT"; "ETHUSDT"; "XRPUSDT"; "BCHUSDT"; "LTCUSDT";
                          "ADAUSDT"; "ETCUSDT"; "TRXUSDT"; "DOTUSDT"; "DOGEUSDT"];
     Backtest.calendar := "24/7";
     Backtest.frequency := "minute";
     Backtest.weight_method := "custom";
     Backtest.custom_weights := custom_weights;
     Backtest.generate_report_flag := true;
     Backtest.path := "/content/drive/MyDrive/NeoMatrixAI/backtest_report" |}.

(** The weights of the config cell (they sum to 1), and weights that sum
    to 0.97. *)
Definition weights_1 : pyval :=
  PDict [("BTCUSDT", PFloat (5 # 10)); ("ETHUSDT", PFloat (2 # 10));
         ("XRPUSDT", PFloat (1 # 10)); ("BCHUSDT", PFloat (4 # 100));
         ("LTCUSDT", PFloat (4 # 100)); ("ADAUSDT", PFloat (3 # 100));
         ("ETCUSDT", PFloat (3 # 100)); ("TRXUSDT", PFloat (3 # 100));
         ("DOTUSDT", PFloat (2 # 100)); ("DOGEUSDT", PFloat (1 # 100))].

Definition weights_097 : pyval :=
  PDict [("BTCUSDT", PFloat (50 # 100)); ("ETHUSDT", PFloat (47 # 100))].

(** An engine that answers every request with status 200 and [body]. *)
Definition engine (body : pyval) : Request -> outcome :=
  fun _ => Replied {| status_code := 200; json_body := Some body;
                      text := ""; content_type := Some "application/json" |}.

Definition html_reply : list (string * pyval) :=
  [("report_type", PStr "html");
   ("html_content", PStr "<html>report</html>");
   ("logs", PStr "");
   ("stdout", PStr "")].

(** A fresh notebook session on 2025-06-30 06:18: nothing sent or printed,
    no [session_id] yet, the given files on disk. *)
Definition world (srv : Request -> outcome) (fs : gmap string string) : World :=
  {| server := srv;
     now := {| year := 2025; month := 6; day := 30; hour := 6; minute := 18 |};
     can_mkdir := fun _ => true;
     can_write := fun _ => true;
     sent := [];
     printed := [];
     dirs := ∅;
     files := fs;
     session_id := None |}.

(** A strategy file whose function returns BTCUSDT on both sides. *)
Definition overlapping : Spec.Artifact :=
  {| Spec.source := "def strategy(df, config_dict): return ['BTCUSDT'], ['BTCUSDT']";
     Spec.returned := PTuple [PList [PStr "BTCUSDT"]; PList [PStr "BTCUSDT"]] |}.

Definition trade_vars : Trade.Vars :=
  {| Trade.USER_KEY := Some "user-key";
     Trade.DATA_KEY := Some "data-key";
     Trade.strategy_name := "multi_period_momentum" |}.

(** The engine's reply when the session already runs: the session fields
    come inside the error wrapper. *)
Definition nested_reply : pyval :=
  PDict [("message",
          PDict [("message", PStr "already running");
                 ("session_id", PStr "session-1");
                 ("dashboard_url", PStr "https://dashboard/session-1")])].


(** The same three symbols with another middle row. *)
Definition prices_other_middle : DataFrame Q :=
  {| columns := ["BTCUSDT"; "ETHUSDT"; "XRPUSDT"];
     rows := [[1; 2; 4]; [9; 9; 9]; [3; 2; 1]]%Q |}.

(** The backtest notebook with weight_method 'equal'. *)
Definition backtest_vars_equal (custom_weights : pyval) : Backtest.Vars :=
  {| Backtest.USER_KEY := Some "user-key";
     Backtest.DATA_KEY := Some "data-key";
     Backtest.tradeType := "future";
     Backtest.strategy_name := "multi_period_momentum";
     Backtest.strategy_config_params := Backtest.config_cell_params (PInt 72);
     Backtest.start_date_str := "2025-03-10";
     Backtest.end_date_str := "2025-03-20";
     Backtest.lookback_min := PInt 360;
     Backtest.initial_capital := PInt 200000;
     Backtest.leverage := PInt 10;
     Backtest.symbols := ["BTCUSDT"; "ETHUSDT"; "XRPUSDT"];
     Backtest.calendar := "24/7";
     Backtest.frequency := "minute";
     Backtest.weight_method := "equal";
     Backtest.custom_weights := custom_weights;
     Backtest.generate_report_flag := true;
     Backtest.path := "/content/drive/MyDrive/NeoMatrixAI/backtest_report" |}.

(** A fresh session on a disk that refuses every write. *)
Definition read_only_world (srv : Request -> outcome) : World :=
  {| server := srv;
     now := {| year := 2025; month := 6; day := 30; hour := 6; minute := 18 |};
     can_mkdir := fun _ => true;
     can_write := fun _ => false;
     sent := [];
     printed := [];
     dirs := ∅;
     files := ∅;
     session_id := None |}.

(** An html reply whose html_content is a list, not text. *)
Definition list_html_reply : list (string * pyval) :=
  [("report_type", PStr "html");
   ("html_content", PList [PStr "<html>report</html>"]);
   ("logs", PStr "");
   ("stdout", PStr "")].

(** A reply to run-system with the session identifier and nothing else. *)
Definition half_reply : pyval := PDict [("session_id", PStr "session-1")].

End Samples.

(** * Properties *)

(** ** pandas *)

Module PandasFacts.

Lemma head_nonneg {A} (k : Z) (s : Series A) :
  (0 <= k)%Z -> head k s = take (Z.to_nat k) s.
Proof.
  intros Hk. unfold head, slice_stop.
  destruct (Z.ltb_spec k 0) as [Hlt|_]; [lia|reflexivity].
Qed.

Lemma tail_nonneg {A} (k : Z) (s : Series A) :
  (0 <= k)%Z -> tail k s = drop (length s - Z.to_nat k) s.
Proof.
  intros Hk. unfold tail, slice_start.
  destruct (Z.eqb_spec k 0) as [->|Hne].
  - cbn. rewrite Nat.sub_0_r. symmetry. apply drop_all.
  - destruct (Z.ltb_spec (- k) 0) as [_|Hge]; [|lia].
    f_equal. lia.
Qed.

Lemma iloc_Ok {A} (df : DataFrame A) (i : Z) (s : Series A) :
  iloc df i = Ok s -> exists r, r ∈ rows df /\ s = zip (columns df) r.
Proof.
  unfold iloc. intros H.
  destruct (_ && _); [|discriminate].
  destruct (rows df !! _) as [r|] eqn:Hr; [|discriminate].
  exists r. split; [by eapply list_elem_of_lookup_2|congruence].
Qed.

Lemma index_zip {A} (cols : list string) (r : list A) :
  length r = length cols -> index (zip cols r) = cols.
Proof. intros H. unfold index. apply fst_zip. lia. Qed.

Lemma index_series_sub {A} (sub : A -> A -> A) (a : Series A) (c : A) :
  index (series_sub sub a c) = index a.
Proof.
  unfold index, series_sub. rewrite <- list_fmap_compose.
  by apply list_fmap_ext.
Qed.

Lemma index_series_div {A} (div : A -> A -> A) (a b : Series A) :
  length a = length b -> index (series_div div a b) = index a.
Proof.
  unfold index, series_div. revert b.
  induction a as [|x a IH]; intros [|y b] Hlen; simplify_eq/=; try done.
  f_equal. by apply IH.
Qed.

Lemma sort_values_desc_perm {A} (geb : A -> A -> bool) (s : Series A) :
  sort_values_desc geb s ≡ₚ s.
Proof. apply merge_sort_Permutation. Qed.

(** The first [a] and the last [a] items of a list: they share an item
    when they must, and none when the list has no duplicates and is long
    enough. *)
Lemma take_drop_shared (L : list string) (a : nat) :
  length L < 2 * min a (length L) ->
  exists s, s ∈ take a L /\ s ∈ drop (length L - a) L.
Proof.
  intros Hlt. set (n := length L) in *.
  destruct (lookup_lt_is_Some_2 L (n - min a n)) as [x Hx]; [lia|].
  exists x. split.
  - apply elem_of_take. exists (n - min a n). split; [done|lia].
  - apply list_elem_of_lookup. exists 0. rewrite lookup_drop.
    rewrite <- Hx. f_equal. lia.
Qed.

Lemma take_drop_disjoint (L : list string) (a : nat) :
  NoDup L ->
  2 * min a (length L) <= length L ->
  forall s, s ∈ take a L -> s ∉ drop (length L - a) L.
Proof.
  intros Hnd Hle s (i & Hi & Hia)%elem_of_take (j & Hj)%list_elem_of_lookup.
  rewrite lookup_drop in Hj.
  pose proof (NoDup_lookup _ _ _ _ Hnd Hi Hj) as Heq.
  apply lookup_lt_Some in Hi. lia.
Qed.

End PandasFacts.

(** ** The example strategy *)

Module StrategyFacts.
Import PandasFacts Strategy.

Section facts.
Context {num : Type}.
Variable div : num -> num -> num.
Variable sub : num -> num -> num.
Variable one : num.
Variable geb : num -> num -> bool.

(** With its configuration and its two rows at hand the strategy returns,
    and what it returns is read off the sorted returns. *)
Lemma strategy_unfold df config_dict p k last prev :
  configured config_dict p k ->
  iloc df (-1) = Ok last ->
  iloc df (- p) = Ok prev ->
  strategy div sub one geb df config_dict =
    let ranked := sort_values_desc geb (simple_returns div sub one last prev) in
    Ok (index (head k ranked), index (tail k ranked)).
Proof.
  intros (sc & m & Hsc & Hm & Hp & Hk) Hlast Hprev.
  unfold strategy. rewrite Hsc. cbn. rewrite Hm. cbn. rewrite Hp. cbn.
  rewrite Hk. cbn. rewrite Hlast. cbn. rewrite Hprev. reflexivity.
Qed.

Lemma index_simple_returns df i j last prev :
  rectangular df ->
  iloc df i = Ok last -> iloc df j = Ok prev ->
  index (simple_returns div sub one last prev) = columns df.
Proof.
  intros Hrect (r1 & Hr1 & ->)%iloc_Ok (r2 & Hr2 & ->)%iloc_Ok.
  unfold rectangular in Hrect. rewrite Forall_forall in Hrect.
  pose proof (Hrect _ Hr1) as H1. pose proof (Hrect _ Hr2) as H2.
  unfold simple_returns.
  rewrite index_series_sub, index_series_div, index_zip; try done.
  rewrite !length_zip_with. lia.
Qed.



(** C9.  On a frame with [n] distinct symbol columns and a candidate count
    [k >= 0] the strategy returns two lists of [min k n] symbols each; the
    lists share no symbol exactly when [2 * min k n <= n], and share one
    whenever [n < 2 * min k n]. *)
Theorem strategy_candidates_overlap df config_dict p k last prev :
  rectangular df -> NoDup (columns df) ->
  configured config_dict p k -> (0 <= k)%Z ->
  iloc df (-1) = Ok last -> iloc df (- p) = Ok prev ->
  let n := length (columns df) in
  let m := min (Z.to_nat k) n in
  exists long short,
    strategy div sub one geb df config_dict = Ok (long, short) /\
    length long = m /\ length short = m /\
    ((forall s, s ∈ long -> s ∉ short) <-> 2 * m <= n) /\
    (n < 2 * m -> exists s, s ∈ long /\ s ∈ short).
Proof.
  intros Hrect Hnd Hcfg Hk Hlast Hprev n m.
  set (ranked := sort_values_desc geb (simple_returns div sub one last prev)).
  assert (HL : index ranked ≡ₚ columns df).
  { rewrite <- (index_simple_returns df (-1) (- p) last prev) by done.
    unfold index. apply fmap_Permutation, sort_values_desc_perm. }
  assert (Hlen : length (index ranked) = n) by (by rewrite HL).
  assert (HndL : NoDup (index ranked)) by (by rewrite HL).
  assert (Hlr : length ranked = n)
    by (by unfold index in Hlen; rewrite length_fmap in Hlen).
  exists (take (Z.to_nat k) (index ranked)), (drop (n - Z.to_nat k) (index ranked)).
  assert (Hshared : n < 2 * m ->
            exists s, s ∈ take (Z.to_nat k) (index ranked)
                      /\ s ∈ drop (n - Z.to_nat k) (index ranked)).
  { intros Hlt. rewrite <- Hlen. apply take_drop_shared. rewrite Hlen. apply Hlt. }
  split; [|split; [|split; [|split]]].
  - rewrite (strategy_unfold _ _ p k last prev) by done.
    cbn zeta. fold ranked. rewrite head_nonneg, tail_nonneg by done.
    unfold index. by rewrite fmap_take, fmap_drop, Hlr.
  - rewrite length_take. lia.
  - rewrite length_drop. lia.
  - split.
    + intros Hdisj. destruct (decide (2 * m <= n)) as [|Hgt]; [done|].
      destruct Hshared as (s & Hs1 & Hs2); [lia|]. by destruct (Hdisj s).
    + intros Hle. rewrite <- Hlen. apply take_drop_disjoint; [done|].
      rewrite Hlen. apply Hle.
  - exact Hshared.
Qed.

(** The strategy takes "minutes" to be a list.  On the configuration of
    the guide's own template, where it is an int, [minutes[0]] raises. *)
Example strategy_guide_config_raises df :
  strategy div sub one geb df Samples.guide_config = Raise TypeError.
Proof. reflexivity. Qed.

End facts.

Lemma qgeb_total (x y : Q) : Samples.qgeb x y = true \/ Samples.qgeb y x = true.
Proof.
  unfold Samples.qgeb. rewrite !Qle_bool_iff.
  destruct (Qlt_le_dec x y) as [H|H]; [right; by apply Qlt_le_weak|by left].
Qed.

Lemma qgeb_trans (x y z : Q) :
  Samples.qgeb x y = true -> Samples.qgeb y z = true -> Samples.qgeb x z = true.
Proof.
  unfold Samples.qgeb. rewrite !Qle_bool_iff. intros H1 H2. by eapply Qle_trans.
Qed.

Lemma sample_configured k p : configured (Samples.strategy_config k p) p k.
Proof. by exists (PDict [("maximum_candidates", PInt k);
                        ("minutes", PList [PInt p; PInt 180; PInt 360])]),
                 (PList [PInt p; PInt 180; PInt 360]). Qed.


(** Three symbols and two candidates per side: the lists overlap. *)
Lemma strategy_candidates_overlap_witness :
  exists long short,
    strategy Qdiv Qminus 1%Q Samples.qgeb Samples.prices (Samples.strategy_config 2 3) =
      Ok (long, short) /\
    length long = 2 /\ length short = 2 /\
    ((forall s, s ∈ long -> s ∉ short) <-> 2 * 2 <= 3) /\
    (3 < 2 * 2 -> exists s, s ∈ long /\ s ∈ short).
Proof.
  apply (strategy_candidates_overlap Qdiv Qminus 1%Q Samples.qgeb Samples.prices
           (Samples.strategy_config 2 3) 3 2
           (zip (columns Samples.prices) [3; 2; 1]%Q)
           (zip (columns Samples.prices) [1; 2; 4]%Q)).
  - repeat constructor.
  - apply (bool_decide_unpack _). vm_compute. exact I.
  - apply sample_configured.
  - lia.
  - reflexivity.
  - reflexivity.
Defined.

End StrategyFacts.

(** ** Cells: what they send and what they write *)

Module NotebookFacts.

#[global] Instance same_sent_preorder : PreOrder same_sent.
Proof. split; unfold same_sent; [done|intros x y z; congruence]. Qed.

#[global] Instance same_fs_preorder : PreOrder same_fs.
Proof.
  split; unfold same_fs; [done|].
  intros x y z [] []; split; congruence.
Qed.

Section stable.
Context (R : relation World) `{!PreOrder R}.

Lemma stable_ret {A} (a : A) : stable R (mret a).
Proof. intros w. reflexivity. Qed.

Lemma stable_raise {A} (e : exn) : stable R (@raise A e).
Proof. intros w. reflexivity. Qed.

Lemma stable_lift {A} (r : result A) : stable R (lift r).
Proof. intros w. reflexivity. Qed.

Lemma stable_bind {A B} (m : M A) (k : A -> M B) :
  stable R m -> (forall a, stable R (k a)) -> stable R (m ≫= k).
Proof.
  intros Hm Hk w. unfold mbind, cell_bind, bind.
  specialize (Hm w). destruct (m w) as [[a|e] w1]; cbn in *; [|done].
  etrans; [exact Hm|apply Hk].
Qed.

Lemma stable_try_except {A} (m : M A) (h : exn -> M A) :
  stable R m -> (forall e, stable R (h e)) -> stable R (try_except m h).
Proof.
  intros Hm Hh w. unfold try_except.
  specialize (Hm w). destruct (m w) as [[a|e] w1]; cbn in *; [done|].
  etrans; [exact Hm|apply Hh].
Qed.

End stable.

Lemma print_same_sent l : stable same_sent (print l).
Proof. by intros w. Qed.
Lemma print_same_fs l : stable same_fs (print l).
Proof. by intros w. Qed.
Lemma path_exists_same_sent p : stable same_sent (path_exists p).
Proof. by intros w. Qed.
Lemma datetime_now_same_sent : stable same_sent datetime_now.
Proof. by intros w. Qed.
Lemma makedirs_same_sent p : stable same_sent (makedirs p).
Proof. intros w. unfold makedirs. by destruct (can_mkdir w p). Qed.
Lemma open_w_same_sent p : stable same_sent (open_w p).
Proof. intros w. unfold open_w. by destruct (can_write w p). Qed.
Lemma write_same_sent p v : stable same_sent (write p v).
Proof. intros w. by destruct v. Qed.
Lemma read_file_same_sent p : stable same_sent (read_file p).
Proof. intros w. unfold read_file. by destruct (files w !! p). Qed.
Lemma response_json_stable R `{!PreOrder R} r : stable R (response_json r).
Proof. unfold response_json. destruct (json_body r); [apply (stable_ret R)|apply stable_raise; done]. Qed.

Create HintDb cell.
#[global] Hint Resolve print_same_sent print_same_fs path_exists_same_sent
  datetime_now_same_sent makedirs_same_sent open_w_same_sent write_same_sent
  read_file_same_sent : cell.

(** One step of a stability proof: follow the structure of the cell. *)
Ltac stable_step :=
  lazymatch goal with
  | |- stable _ (_ ≫= _) => apply stable_bind; [apply _| |intros ?]
  | |- stable _ (try_except _ _) => apply stable_try_except; [apply _| |intros ?]
  | |- stable _ (mret _) => apply stable_ret; apply _
  | |- stable _ (ret _) => apply (stable_ret _); apply _
  | |- stable _ (raise _) => apply stable_raise; apply _
  | |- stable _ (lift _) => apply stable_lift; apply _
  | |- stable _ (response_json _) => apply response_json_stable; apply _
  | |- stable _ (if ?b then _ else _) => destruct b
  | |- stable _ (match ?x with _ => _ end) => destruct x
  | |- stable _ _ => solve [auto with cell]
  end.

Ltac solve_stable := cbn zeta; repeat stable_step.

(** After [send r], a continuation that sends nothing leaves [r] as the
    one request made. *)
Lemma sent_send_then {A} (r : Request) (k : Response -> M A) w :
  (forall x, stable same_sent (k x)) ->
  sent ((send r ≫= k) w).2 = sent w ++ [r].
Proof.
  intros Hk. unfold mbind, cell_bind, bind, send.
  destruct (server w r) as [resp| |]; [|done..].
  apply (Hk resp (set_sent (fun s => s ++ [r]) w)).
Qed.

(** The steps of a cell, unfolded for evaluation on a given world. *)
Ltac run_cell :=
  unfold mbind, cell_bind, mret, cell_ret, bind, ret, raise, lift, try_except,
    print, path_exists, makedirs, open_w, write, datetime_now, response_json,
    raise_for_status, send;
  cbn [fst snd negb andb orb
       server now can_mkdir can_write sent printed dirs files session_id
       set_sent set_printed set_dirs set_files set_session_id].

End NotebookFacts.

Module BacktestFacts.
Import NotebookFacts Backtest.

Lemma save_report_same_sent v html : stable same_sent (save_report v html).
Proof. unfold save_report. solve_stable. Qed.

Lemma handle_result_same_sent v r : stable same_sent (handle_result v r).
Proof.
  unfold handle_result. pose proof (save_report_same_sent v) as Hs.
  solve_stable.
Qed.

Lemma on_decode_error_same_sent r e : stable same_sent (on_decode_error r e).
Proof. unfold on_decode_error. solve_stable. Qed.

Lemma on_request_error_same_sent url e : stable same_sent (on_request_error url e).
Proof. unfold on_request_error. solve_stable. Qed.

Lemma raise_for_status_stable R `{!PreOrder R} r : stable R (raise_for_status r).
Proof. unfold raise_for_status. solve_stable. Qed.

(** What comes after the request is sent sends nothing more. *)
Lemma after_send_same_sent v response :
  stable same_sent
    (raise_for_status response;;
     print [FStr nl; FStr "--- Backtest execution successful (Status Code: ";
            FInt (status_code response); FStr ") ---"];;
     try_except (handle_result v response) (on_decode_error response)).
Proof.
  pose proof (handle_result_same_sent v response).
  pose proof (on_decode_error_same_sent response).
  pose proof (raise_for_status_stable same_sent response).
  solve_stable.
Qed.

Lemma sent_try_send {A} (r : Request) (k : Response -> M A) (h : exn -> M A) w :
  (forall x, stable same_sent (k x)) -> (forall e, stable same_sent (h e)) ->
  sent (try_except (send r ≫= k) h w).2 = sent w ++ [r].
Proof.
  intros Hk Hh. unfold try_except, mbind, cell_bind, bind, send.
  destruct (server w r) as [resp| |].
  - pose proof (Hk resp (set_sent (fun s => s ++ [r]) w)) as H1.
    destruct (k resp _) as [[a|e] w1]; cbn in *.
    + exact H1.
    + rewrite (Hh e w1). exact H1.
  - rewrite (Hh Timeout _). reflexivity.
  - rewrite (Hh RequestException _). reflexivity.
Qed.

Lemma run_backtest_sent v w payload :
  add_custom_weights v w = (Ok payload, w) ->
  sent (run_backtest v w).2 = sent w ++ [backtest_request v payload].
Proof.
  intros Hp. unfold run_backtest, mbind at 1, cell_bind at 1, bind at 1.
  rewrite Hp. cbn zeta.
  apply sent_try_send.
  - intros x. apply after_send_same_sent.
  - intros e. apply on_request_error_same_sent.
Qed.

Lemma add_custom_weights_custom v w :
  weight_method v = "custom" -> truthy (custom_weights v) = true ->
  add_custom_weights v w =
    (Ok (request_payload v ++ [("custom_weights", custom_weights v)]), w).
Proof. intros Hm Ht. unfold add_custom_weights. by rewrite Hm, Ht. Qed.

Lemma add_custom_weights_missing v w :
  weight_method v = "custom" -> truthy (custom_weights v) = false ->
  add_custom_weights v w =
    (Raise (ValueError "custom_weights is required if weight_method is 'custom'"), w).
Proof. intros Hm Ht. unfold add_custom_weights. by rewrite Hm, Ht. Qed.

Lemma add_custom_weights_other v w :
  weight_method v ≠ "custom" ->
  add_custom_weights v w = (Ok (request_payload v), w).
Proof.
  intros Hm. unfold add_custom_weights.
  destruct (String.eqb_spec (weight_method v) "custom"); done.
Qed.




Lemma truthy_nonempty s : s ≠ "" -> truthy (PStr s) = true.
Proof. intros H. cbn. by destruct (String.eqb_spec s ""). Qed.




Lemma on_decode_error_same_fs r e : stable same_fs (on_decode_error r e).
Proof. unfold on_decode_error. solve_stable. Qed.

Lemma on_request_error_same_fs url e : stable same_fs (on_request_error url e).
Proof. unfold on_request_error. solve_stable. Qed.

Lemma fs_try_except {A} (m : M A) (h : exn -> M A) w :
  (forall e, stable same_fs (h e)) ->
  same_fs (m w).2 (try_except m h w).2.
Proof.
  intros Hh. unfold try_except. destruct (m w) as [[a|e] w1]; cbn [snd].
  - reflexivity.
  - apply Hh.
Qed.

(** After a reply with a good status, the files of the cell's final world
    are the files [handle_result] leaves. *)
Lemma run_backtest_fs v w payload resp :
  add_custom_weights v w = (Ok payload, w) ->
  server w (backtest_request v payload) = Replied resp ->
  (status_code resp < 400 \/ 600 <= status_code resp)%Z ->
  exists w2,
    server w2 = server w /\ now w2 = now w /\ can_mkdir w2 = can_mkdir w /\
    can_write w2 = can_write w /\ files w2 = files w /\ dirs w2 = dirs w /\
    same_fs (handle_result v resp w2).2 (run_backtest v w).2.
Proof.
  intros Hp Hsrv Hst.
  eexists (set_printed _ (set_sent _ w)). repeat (split; [reflexivity|]).
  unfold run_backtest, mbind at 1, cell_bind at 1, bind at 1. rewrite Hp.
  cbv zeta.
  etrans; [|apply fs_try_except; intros; apply on_request_error_same_fs].
  unfold mbind at 1, cell_bind at 1, bind at 1, send. rewrite Hsrv.
  unfold mbind at 1, cell_bind at 1, bind at 1, raise_for_status.
  replace ((400 <=? status_code resp)%Z && (status_code resp <? 600)%Z)
    with false by lia.
  unfold ret at 1.
  unfold mbind at 1, cell_bind at 1, bind at 1, print at 1. cbv beta iota.
  apply fs_try_except. intros. apply on_decode_error_same_fs.
Qed.






(** C1, as the cell has it.  With weight_method 'custom' the cell checks
    one thing: that custom_weights is there (not None, not empty).  If it
    is not, the cell raises ValueError and the world is as before, so no
    request was made; if it is, the request goes out with custom_weights
    attached to the payload unchanged. *)
Theorem custom_weights_presence_check v w :
  weight_method v = "custom" ->
  (truthy (custom_weights v) = false ->
   run_backtest v w =
     (Raise (ValueError "custom_weights is required if weight_method is 'custom'"), w)) /\
  (truthy (custom_weights v) = true ->
   sent (run_backtest v w).2 =
     sent w ++ [backtest_request v
                  (request_payload v ++ [("custom_weights", custom_weights v)])]).
Proof.
  intros Hm. split; intros Ht.
  - unfold run_backtest, mbind, cell_bind, bind.
    by rewrite (add_custom_weights_missing v w Hm Ht).
  - apply run_backtest_sent. by apply add_custom_weights_custom.
Qed.

Lemma custom_weights_presence_check_witness :
  let v := Samples.backtest_vars (config_cell_params (PInt 72)) Samples.weights_1 in
  let w := Samples.world (Samples.engine (PDict Samples.html_reply)) ∅ in
  sent (run_backtest v w).2 =
    [backtest_request v (request_payload v ++ [("custom_weights", Samples.weights_1)])].
Proof.
  intros v w.
  exact (proj2 (custom_weights_presence_check v w eq_refl) eq_refl).
Defined.

(** C1 as stated fails: weights that sum to 0.97 pass the cell's check and
    are sent to the engine. *)
Lemma custom_weights_097_sent :
  let v := Samples.backtest_vars (config_cell_params (PInt 72)) Samples.weights_097 in
  let w := Samples.world (Samples.engine (PDict Samples.html_reply)) ∅ in
  weight_method v = "custom" /\
  Spec.custom_weights_ok (symbols v) (custom_weights v) = false /\
  sent (run_backtest v w).2 =
    [backtest_request v (request_payload v ++ [("custom_weights", Samples.weights_097)])].
Proof. vm_compute. repeat split. Qed.




(** C4, as the cell has it.  The upload cell does not look into the
    strategy: a file that exists is posted as it is, and the only local
    failure is a missing file, which raises before any request. *)
Theorem upload_strategy_unchecked v w :
  (forall content,
      files w !! strategy_file_path v = Some content ->
      sent (upload_strategy v w).2 = sent w ++ [upload_request v content]) /\
  (files w !! strategy_file_path v = None ->
   upload_strategy v w = (Raise (FileNotFoundError (strategy_file_path v)), w)).
Proof.
  split.
  - intros content Hf. unfold upload_strategy, mbind at 1, cell_bind at 1, bind at 1.
    unfold read_file. rewrite Hf. apply sent_send_then.
    intros x. pose proof (response_json_stable same_sent x). solve_stable.
  - intros Hf. unfold upload_strategy, mbind, cell_bind, bind, read_file.
    by rewrite Hf.
Qed.

(** C4 as stated fails: a strategy that returns BTCUSDT on both sides
    breaks the contract, and its file is uploaded all the same. *)
Lemma overlapping_strategy_uploaded :
  let v := Samples.backtest_vars (config_cell_params (PInt 72)) Samples.weights_1 in
  let w := Samples.world (Samples.engine (PDict [("status", PInt 200)]))
             {[ strategy_file_path v := Spec.source Samples.overlapping ]} in
  Spec.contract_ok (symbols v) (Spec.returned Samples.overlapping) = false /\
  sent (upload_strategy v w).2 = [upload_request v (Spec.source Samples.overlapping)].
Proof. vm_compute. repeat split. Qed.


End BacktestFacts.

(** ** The live-trading cells *)

Module TradeFacts.
Import NotebookFacts Trade.

Lemma json_item_path resp body keys :
  json_body resp = Some body ->
  json_item resp keys = lift (foldl (fun r k => v ← r; getitem v k) (Ok body) keys).
Proof. intros H. unfold json_item, response_json. by rewrite H. Qed.



(** The config file, with its [rebalancing_config], is posted as it is. *)
Lemma upload_config_unchecked v w content :
  files w !! config_file_path v = Some content ->
  sent (upload_config v w).2 = sent w ++ [upload_config_request v content].
Proof.
  intros Hf. unfold upload_config, mbind at 1, cell_bind at 1, bind at 1.
  unfold read_file. rewrite Hf. apply sent_send_then.
  intros x. pose proof (response_json_stable same_sent x). solve_stable.
Qed.

(** *** [pd.DataFrame] of records *)

Lemma first_seen_covers (seen ks : list string) k :
  k ∈ ks -> k ∈ seen \/ k ∈ first_seen seen ks.
Proof.
  revert seen. induction ks as [|k' ks IH]; intros seen Hin; [by inversion Hin|].
  cbn. apply elem_of_cons in Hin as [->|Hin].
  - case_bool_decide; [by left|right; by left].
  - case_bool_decide.
    + by apply IH.
    + destruct (IH (k' :: seen) Hin) as [[->|H1]%elem_of_cons|H1].
      * right; by left.
      * by left.
      * right; by right.
Qed.

Lemma first_seen_sound (seen ks : list string) k :
  k ∈ first_seen seen ks -> k ∈ ks.
Proof.
  revert seen. induction ks as [|k' ks IH]; intros seen; cbn; [done|].
  case_bool_decide.
  - intros H'. right. by eapply IH.
  - intros [->|H']%elem_of_cons; [by left|right; by eapply IH].
Qed.


Lemma from_records_columns recs c :
  c ∈ columns (from_records recs) <->
  exists r, r ∈ recs /\ c ∈ fst <$> r.
Proof.
  unfold from_records. cbn [columns]. split.
  - intros H%first_seen_sound. apply list_elem_of_join in H as (ks & Hc & Hks).
    apply list_elem_of_fmap in Hks as (r & -> & Hr). eauto.
  - intros (r & Hr & Hc).
    destruct (first_seen_covers [] (mjoin ((fun r : list (string * pyval) => fst <$> r) <$> recs)) c)
      as [H|H]; [|by inversion H|done].
    apply list_elem_of_join. exists (fst <$> r). split; [done|].
    apply list_elem_of_fmap. eauto.
Qed.



Lemma mapM_as_record recs : mapM as_record (PDict <$> recs) = Some recs.
Proof.
  induction recs as [|r recs IH]; [reflexivity|].
  cbn. rewrite IH. reflexivity.
Qed.




(** *** Letter case *)







End TradeFacts.

(** ** The equal-weight allocation *)

Module SpecFacts.
Import Spec.

(** The checks of the specification on the notebook's own values. *)
Example custom_weights_ok_config_cell :
  custom_weights_ok
    (Backtest.symbols (Samples.backtest_vars PNone Samples.weights_1))
    Samples.weights_1 = true.
Proof. reflexivity. Qed.

Example interval_ok_24 : interval_ok (PInt 24) = true /\ interval_ok (PInt 3) = false.
Proof. split; reflexivity. Qed.

Example contract_ok_disjoint :
  contract_ok ["BTCUSDT"; "ETHUSDT"]
    (PTuple [PList [PStr "BTCUSDT"]; PList [PStr "ETHUSDT"]]) = true.
Proof. reflexivity. Qed.

Lemma total_const (c : Q) (l : list string) :
  (total ((fun _ => c) <$> l) == inject_Z (Z.of_nat (length l)) * c)%Q.
Proof.
  induction l as [|s l IH].
  - cbn. ring.
  - cbn [fmap list_fmap total foldr length]. fold (total ((fun _ => c) <$> l)).
    rewrite IH, Nat2Z.inj_succ, <- Z.add_1_r, inject_Z_plus. ring.
Qed.

Lemma weights_allocate_equal (U : list string) :
  snd <$> allocate_equal U =
    (fun _ => (1 / inject_Z (Z.of_nat (length U)))%Q) <$> U.
Proof. unfold allocate_equal. rewrite <- list_fmap_compose. reflexivity. Qed.

(** C8.  For a non-empty universe [U] the equal allocation has one entry
    per symbol of [U], in order, each with the weight [1 / |U|], and the
    weights sum to 1 (so the sum is within 1e-9 of 1). *)
Theorem equal_allocation_uniform (U : list string) :
  U ≠ [] ->
  fst <$> allocate_equal U = U /\
  Forall (fun sw => snd sw = (1 / inject_Z (Z.of_nat (length U)))%Q) (allocate_equal U) /\
  (total (snd <$> allocate_equal U) == 1)%Q /\
  (Qabs (total (snd <$> allocate_equal U) - 1) <= 1 # 1000000000)%Q.
Proof.
  intros Hne.
  assert (Hsum : (total (snd <$> allocate_equal U) == 1)%Q).
  { rewrite weights_allocate_equal, total_const.
    assert (Hn : ~ (inject_Z (Z.of_nat (length U)) == 0)%Q).
    { destruct U; [done|]. cbn [length]. unfold Qeq. cbn. lia. }
    field. exact Hn. }
  split; [|split; [|split]].
  - unfold allocate_equal. rewrite <- list_fmap_compose. apply list_fmap_id.
  - unfold allocate_equal. apply Forall_fmap, Forall_true. done.
  - exact Hsum.
  - rewrite Hsum. vm_compute. discriminate.
Qed.

Lemma equal_allocation_uniform_witness :
  let U := ["BTCUSDT"; "ETHUSDT"; "XRPUSDT"] in
  allocate_equal U = [("BTCUSDT", 1 / 3); ("ETHUSDT", 1 / 3); ("XRPUSDT", 1 / 3)]%Q /\
  (total (snd <$> allocate_equal U) == 1)%Q.
Proof.
  intros U. split; [reflexivity|].
  by apply (equal_allocation_uniform U).
Defined.

End SpecFacts.

(** * Further properties of the code *)

(** ** The example strategy: ranking, counts and bounds *)

Module StrategyExtras.
Import PandasFacts Strategy StrategyFacts.

Lemma head_sublist {A} (k : Z) (s : Series A) : head k s `sublist_of` s.
Proof. unfold head, slice_stop. destruct (k <? 0)%Z; apply sublist_take. Qed.

Lemma tail_sublist {A} (k : Z) (s : Series A) : tail k s `sublist_of` s.
Proof.
  unfold tail, slice_start. destruct (k =? 0)%Z; [apply sublist_nil_l|].
  destruct (- k <? 0)%Z; apply sublist_drop.
Qed.



Section extras.
Context {num : Type}.
Variable div : num -> num -> num.
Variable sub : num -> num -> num.
Variable one : num.
Variable geb : num -> num -> bool.

(** X1.  Top-k selection: no symbol left out of the long list has a
    return that the comparison puts above a long candidate's, and every
    short candidate's return is below or equal to that of every symbol
    left out of the short list. *)
Theorem strategy_candidates_dominate df config_dict p k last prev :
  (forall x y, geb x y = true \/ geb y x = true) ->
  (forall x y z, geb x y = true -> geb y z = true -> geb x z = true) ->
  configured config_dict p k -> (0 <= k)%Z ->
  iloc df (-1) = Ok last -> iloc df (- p) = Ok prev ->
  exists ranked,
    ranked ≡ₚ simple_returns div sub one last prev /\
    strategy div sub one geb df config_dict =
      Ok (index (take (Z.to_nat k) ranked),
          index (drop (length ranked - Z.to_nat k) ranked)) /\
    (forall x y, x ∈ take (Z.to_nat k) ranked -> y ∈ drop (Z.to_nat k) ranked ->
                 geb (snd x) (snd y) = true) /\
    (forall x y, x ∈ take (length ranked - Z.to_nat k) ranked ->
                 y ∈ drop (length ranked - Z.to_nat k) ranked ->
                 geb (snd x) (snd y) = true).
Proof.
  intros Htot Htrans Hcfg Hk Hlast Hprev.
  set (ranked := sort_values_desc geb (simple_returns div sub one last prev)).
  assert (Hsorted : StronglySorted (desc geb) ranked).
  { apply StronglySorted_merge_sort.
    - intros x y z. apply Htrans.
    - intros x y. apply Htot. }
  assert (Hsplit : forall a x y, x ∈ take a ranked -> y ∈ drop a ranked ->
                                 geb (snd x) (snd y) = true).
  { intros a x y Hx Hy. rewrite <- (take_drop a ranked) in Hsorted.
    exact (StronglySorted_app_1_elem_of _ _ _ x y Hsorted Hx Hy). }
  exists ranked. split; [apply sort_values_desc_perm|]. split; [|split].
  - rewrite (strategy_unfold _ _ _ _ _ _ p k last prev) by done.
    cbn zeta. fold ranked. by rewrite head_nonneg, tail_nonneg.
  - apply Hsplit.
  - apply Hsplit.
Qed.

(** X2.  For any candidate count, negative ones included, every symbol
    the strategy returns is a column of the frame, and with distinct
    column labels neither list names a symbol twice. *)
Theorem strategy_candidates_are_columns df config_dict p k last prev :
  rectangular df ->
  configured config_dict p k ->
  iloc df (-1) = Ok last -> iloc df (- p) = Ok prev ->
  exists long short,
    strategy div sub one geb df config_dict = Ok (long, short) /\
    (forall s, s ∈ long -> s ∈ columns df) /\
    (forall s, s ∈ short -> s ∈ columns df) /\
    (NoDup (columns df) -> NoDup long /\ NoDup short).
Proof.
  intros Hrect Hcfg Hlast Hprev.
  set (ranked := sort_values_desc geb (simple_returns div sub one last prev)).
  assert (HL : index ranked ≡ₚ columns df).
  { rewrite <- (index_simple_returns div sub one df (-1) (- p) last prev) by done.
    unfold index. apply fmap_Permutation, sort_values_desc_perm. }
  assert (Hh : index (head k ranked) `sublist_of` index ranked)
    by (unfold index; apply fmap_sublist, head_sublist).
  assert (Ht : index (tail k ranked) `sublist_of` index ranked)
    by (unfold index; apply fmap_sublist, tail_sublist).
  exists (index (head k ranked)), (index (tail k ranked)).
  split; [|split; [|split]].
  - by rewrite (strategy_unfold _ _ _ _ _ _ p k last prev).
  - intros s Hs. rewrite <- HL. by eapply elem_of_sublist.
  - intros s Hs. rewrite <- HL. by eapply elem_of_sublist.
  - intros Hnd. rewrite <- HL in Hnd. split; by eapply sublist_NoDup.
Qed.

(** With its configuration read, the strategy is a function of two rows. *)
Lemma strategy_reads df config_dict p k :
  configured config_dict p k ->
  strategy div sub one geb df config_dict =
    (last ← iloc df (-1);
     prev ← iloc df (- p);
     let ranked := sort_values_desc geb (simple_returns div sub one last prev) in
     Ok (index (head k ranked), index (tail k ranked))).
Proof.
  intros (sc & m & Hsc & Hm & Hp & Hk).
  unfold strategy. rewrite Hsc. cbn. rewrite Hm. cbn. rewrite Hp. cbn.
  rewrite Hk. cbn. destruct (iloc df (-1)); [|done]. cbn.
  by destruct (iloc df (- p)).
Qed.

Lemma iloc_range {A} (df : DataFrame A) (i : Z) :
  let n := Z.of_nat (length (rows df)) in
  ((- n <= i < n)%Z -> exists s, iloc df i = Ok s) /\
  (~ (- n <= i < n)%Z -> iloc df i = Raise IndexError).
Proof.
  intros n. unfold iloc. fold n. split.
  - intros Hi.
    destruct (Z.ltb_spec i 0).
    + replace ((0 <=? i + n)%Z && (i + n <? n)%Z) with true by lia.
      destruct (lookup_lt_is_Some_2 (rows df) (Z.to_nat (i + n))) as [r Hr]; [lia|].
      rewrite Hr. eauto.
    + replace ((0 <=? i)%Z && (i <? n)%Z) with true by lia.
      destruct (lookup_lt_is_Some_2 (rows df) (Z.to_nat i)) as [r Hr]; [lia|].
      rewrite Hr. eauto.
  - intros Hi.
    destruct (Z.ltb_spec i 0).
    + by replace ((0 <=? i + n)%Z && (i + n <? n)%Z) with false by lia.
    + by replace ((0 <=? i)%Z && (i <? n)%Z) with false by lia.
Qed.



(** X5.  The lookback window: on a frame without rows the strategy
    raises IndexError; on a frame with n rows it returns exactly for
    periods with -n < p <= n and raises IndexError for all others. *)
Theorem strategy_window_bounds df config_dict p k :
  configured config_dict p k ->
  let n := Z.of_nat (length (rows df)) in
  (rows df = [] -> strategy div sub one geb df config_dict = Raise IndexError) /\
  (rows df <> [] -> (- n < p <= n)%Z ->
   exists long short, strategy div sub one geb df config_dict = Ok (long, short)) /\
  (~ (- n < p <= n)%Z -> strategy div sub one geb df config_dict = Raise IndexError).
Proof.
  intros Hcfg n. rewrite (strategy_reads df config_dict p k Hcfg).
  destruct (iloc_range df (-1)) as [Hin1 Hout1].
  destruct (iloc_range df (- p)) as [Hin2 Hout2]. fold n in Hin1, Hout1, Hin2, Hout2.
  split; [|split].
  - intros Hrows. rewrite Hout1; [done|]. unfold n. rewrite Hrows. cbn. lia.
  - intros Hrows Hp.
    destruct Hin1 as [last ->]; [destruct (rows df); [done|]; cbn in n; lia|].
    destruct Hin2 as [prev ->]; [lia|]. cbn. eauto.
  - intros Hp. destruct (decide (- n <= -1 < n)%Z) as [Hin|Hn].
    + destruct (Hin1 Hin) as [last ->]. cbn. by rewrite Hout2 by lia.
    + by rewrite (Hout1 Hn).
Qed.

(** X6.  Period 0 does not mean "the last row against itself":
    [df.iloc[-0]] is the first row, so period 0 gives the same result as
    the period that equals the number of rows. *)
Theorem strategy_period_zero_is_first_row df c0 cn k :
  configured c0 0 k ->
  configured cn (Z.of_nat (length (rows df))) k ->
  strategy div sub one geb df c0 = strategy div sub one geb df cn.
Proof.
  intros H0 Hn.
  rewrite (strategy_reads df c0 0 k H0), (strategy_reads df cn _ k Hn).
  destruct (iloc df (-1)) as [last|e] eqn:Hlast; [cbn|done].
  replace (iloc df (- Z.of_nat (length (rows df)))) with (iloc df (- 0)); [done|].
  unfold iloc. cbn [Z.opp].
  destruct (rows df) as [|r rs] eqn:Hrows; [done|].
  set (n := Z.of_nat (length (r :: rs))).
  assert (0 < n)%Z by (unfold n; cbn [length]; lia).
  destruct (Z.ltb_spec (- n) 0); [|lia].
  replace (- n + n)%Z with 0%Z by lia.
  by destruct (Z.ltb_spec 0 0); [lia|].
Qed.

(** X7.  Missing keys: without "strategy_config" the strategy raises
    AttributeError; without "minutes" it raises TypeError; and without
    "maximum_candidates" it raises TypeError too, after both rows were
    read. *)
Theorem strategy_missing_keys df d sc :
  (assoc "strategy_config" d = None ->
   strategy div sub one geb df (PDict d) = Raise AttributeError) /\
  (assoc "strategy_config" d = Some (PDict sc) ->
   assoc "minutes" sc = None ->
   strategy div sub one geb df (PDict d) = Raise TypeError) /\
  (forall m p last prev,
      assoc "strategy_config" d = Some (PDict sc) ->
      assoc "minutes" sc = Some m -> getitem0 m = Ok (PInt p) ->
      assoc "maximum_candidates" sc = None ->
      iloc df (-1) = Ok last -> iloc df (- p) = Ok prev ->
      strategy div sub one geb df (PDict d) = Raise TypeError).
Proof.
  split; [|split].
  - intros H. unfold strategy, get. by rewrite H.
  - intros H Hm. unfold strategy, get. rewrite H. cbn. by rewrite Hm.
  - intros m p last prev H Hm Hp Hk Hlast Hprev.
    unfold strategy, get. rewrite H. cbn. rewrite Hm. cbn. rewrite Hp. cbn.
    rewrite Hk, Hlast. cbn. by rewrite Hprev.
Qed.

(** X8.  The strategy looks at two rows only: frames that agree on the
    last row and on the row [period] from the end give the same result,
    whatever lies between. *)
Theorem strategy_reads_two_rows df1 df2 config_dict p k :
  configured config_dict p k ->
  iloc df1 (-1) = iloc df2 (-1) ->
  iloc df1 (- p) = iloc df2 (- p) ->
  strategy div sub one geb df1 config_dict = strategy div sub one geb df2 config_dict.
Proof.
  intros Hcfg H1 H2.
  rewrite (strategy_reads df1 _ p k Hcfg), (strategy_reads df2 _ p k Hcfg).
  by rewrite H1, H2.
Qed.

End extras.

Lemma strategy_candidates_dominate_witness :
  exists ranked,
    ranked ≡ₚ simple_returns Qdiv Qminus 1%Q
                (zip (columns Samples.prices) [3; 2; 1]%Q)
                (zip (columns Samples.prices) [1; 2; 4]%Q) /\
    strategy Qdiv Qminus 1%Q Samples.qgeb Samples.prices (Samples.strategy_config 1 3) =
      Ok (index (take 1 ranked), index (drop (length ranked - 1) ranked)) /\
    (forall x y, x ∈ take 1 ranked -> y ∈ drop 1 ranked ->
                 Samples.qgeb (snd x) (snd y) = true) /\
    (forall x y, x ∈ take (length ranked - 1) ranked ->
                 y ∈ drop (length ranked - 1) ranked ->
                 Samples.qgeb (snd x) (snd y) = true).
Proof.
  apply (strategy_candidates_dominate Qdiv Qminus 1%Q Samples.qgeb Samples.prices
           (Samples.strategy_config 1 3) 3 1).
  - apply qgeb_total.
  - apply qgeb_trans.
  - apply sample_configured.
  - lia.
  - reflexivity.
  - reflexivity.
Defined.

Lemma strategy_candidates_are_columns_witness :
  exists long short,
    strategy Qdiv Qminus 1%Q Samples.qgeb Samples.prices (Samples.strategy_config (-1) 3) =
      Ok (long, short) /\
    (forall s, s ∈ long -> s ∈ columns Samples.prices) /\
    (forall s, s ∈ short -> s ∈ columns Samples.prices) /\
    (NoDup (columns Samples.prices) -> NoDup long /\ NoDup short).
Proof.
  apply (strategy_candidates_are_columns Qdiv Qminus 1%Q Samples.qgeb Samples.prices
           (Samples.strategy_config (-1) 3) 3 (-1)
           (zip (columns Samples.prices) [3; 2; 1]%Q)
           (zip (columns Samples.prices) [1; 2; 4]%Q)).
  - repeat constructor.
  - apply sample_configured.
  - reflexivity.
  - reflexivity.
Defined.



Lemma strategy_window_bounds_witness :
  strategy Qdiv Qminus 1%Q Samples.qgeb Samples.prices (Samples.strategy_config 1 4) =
    Raise IndexError.
Proof.
  apply (strategy_window_bounds Qdiv Qminus 1%Q Samples.qgeb Samples.prices
           (Samples.strategy_config 1 4) 4 1 (sample_configured 1 4)).
  cbn. lia.
Defined.

Lemma strategy_period_zero_is_first_row_witness :
  strategy Qdiv Qminus 1%Q Samples.qgeb Samples.prices (Samples.strategy_config 1 0) =
  strategy Qdiv Qminus 1%Q Samples.qgeb Samples.prices (Samples.strategy_config 1 3).
Proof.
  exact (strategy_period_zero_is_first_row Qdiv Qminus 1%Q Samples.qgeb Samples.prices
           (Samples.strategy_config 1 0) (Samples.strategy_config 1 3) 1
           (sample_configured 1 0) (sample_configured 1 3)).
Defined.

Lemma strategy_reads_two_rows_witness :
  strategy Qdiv Qminus 1%Q Samples.qgeb Samples.prices (Samples.strategy_config 1 3) =
  strategy Qdiv Qminus 1%Q Samples.qgeb Samples.prices_other_middle
    (Samples.strategy_config 1 3).
Proof.
  exact (strategy_reads_two_rows Qdiv Qminus 1%Q Samples.qgeb Samples.prices
           Samples.prices_other_middle (Samples.strategy_config 1 3) 3 1
           (sample_configured 1 3) eq_refl eq_refl).
Defined.

Lemma strategy_missing_keys_witness :
  strategy Qdiv Qminus 1%Q Samples.qgeb Samples.prices
    (PDict [("strategy_config", PDict [("minutes", PList [PInt 3])])]) =
    Raise TypeError.
Proof.
  apply (strategy_missing_keys Qdiv Qminus 1%Q Samples.qgeb Samples.prices
           [("strategy_config", PDict [("minutes", PList [PInt 3])])]
           [("minutes", PList [PInt 3])])
    with (m := PList [PInt 3]) (p := 3%Z)
         (last := zip (columns Samples.prices) [3; 2; 1]%Q)
         (prev := zip (columns Samples.prices) [1; 2; 4]%Q); reflexivity.
Defined.

End StrategyExtras.

(** ** The run-backtest cell: errors and the file system *)

Module BacktestExtras.
Import NotebookFacts Backtest BacktestFacts.

Lemma on_request_error_returns url e w : (on_request_error url e w).1 = Ok tt.
Proof. destruct e; try reflexivity. destruct body; reflexivity. Qed.

Lemma try_except_returns (m : M unit) (h : exn -> M unit) w :
  (forall e w', (h e w').1 = Ok tt) -> (try_except m h w).1 = Ok tt.
Proof.
  intros Hh. unfold try_except. destruct (m w) as [[[]|e] w1]; [done|apply Hh].
Qed.

Lemma payload_built v w :
  (weight_method v = "custom" -> truthy (custom_weights v) = true) ->
  exists payload, add_custom_weights v w = (Ok payload, w).
Proof.
  intros H. destruct (String.eqb_spec (weight_method v) "custom") as [Hm|Hm].
  - eexists. apply add_custom_weights_custom; auto.
  - eexists. by apply add_custom_weights_other.
Qed.

(** X9.  Once the payload is built the cell cannot fail: whatever the
    engine does (reply, error status, timeout, no connection, a body that
    is not JSON) the cell returns normally, and it has made exactly one
    request, with no retry. *)
Theorem run_backtest_returns_after_one_request v w :
  (weight_method v = "custom" -> truthy (custom_weights v) = true) ->
  exists w' payload,
    run_backtest v w = (Ok tt, w') /\
    sent w' = sent w ++ [backtest_request v payload].
Proof.
  intros Hcw. destruct (payload_built v w Hcw) as [payload Hp].
  pose proof (run_backtest_sent v w payload Hp) as Hsent.
  assert (Hret : (run_backtest v w).1 = Ok tt).
  { unfold run_backtest, mbind at 1, cell_bind at 1, bind at 1. rewrite Hp.
    cbv zeta. apply try_except_returns. intros. apply on_request_error_returns. }
  destruct (run_backtest v w) as [r w']. cbn in *. subst r. eauto.
Qed.

(** X10.  The payload carries "custom_weights" exactly when weight_method
    is 'custom'; under any other method the value of custom_weights has no
    effect on the run at all. *)
Theorem custom_weights_only_when_custom v w payload w1 cw :
  add_custom_weights v w = (Ok payload, w1) ->
  assoc "custom_weights" payload =
    (if String.eqb (weight_method v) "custom" then Some (custom_weights v) else None) /\
  (weight_method v ≠ "custom" ->
   run_backtest (with_custom_weights cw v) w = run_backtest v w).
Proof.
  intros Hp. split.
  - unfold add_custom_weights in Hp.
    destruct (String.eqb (weight_method v) "custom").
    + destruct (truthy (custom_weights v)); cbn in Hp; [|discriminate].
      injection Hp as <- _. reflexivity.
    + injection Hp as <- _. reflexivity.
  - intros Hm. unfold run_backtest, add_custom_weights.
    cbn [weight_method with_custom_weights].
    destruct (String.eqb_spec (weight_method v) "custom"); [done|]. reflexivity.
Qed.


Lemma add_custom_weights_world v w r w1 :
  add_custom_weights v w = (r, w1) -> w1 = w.
Proof.
  unfold add_custom_weights, raise, ret. intros H.
  repeat case_match; by simplify_eq.
Qed.

Lemma eq_str_true v s : eq_str v s = true -> v = PStr s.
Proof.
  destruct v; cbn; try discriminate. intros H. by apply String.eqb_eq in H as ->.
Qed.

Lemma handle_result_same_fs v resp :
  no_report resp -> stable same_fs (handle_result v resp).
Proof.
  intros Hno w. unfold handle_result, response_json.
  destruct (json_body resp) as [body|] eqn:Hbody; [|done]. run_cell.
  destruct body; try done. unfold get, contains. cbv beta iota.
  destruct (eq_str _ "html") eqn:Hrt; [|destruct (eq_str _ "logs_only")]; run_cell.
  - apply eq_str_true in Hrt.
    destruct (assoc "report_type" d) as [rt|] eqn:Hrt'; [|discriminate]. subst rt.
    destruct (assoc "html_content" d) as [h|] eqn:Hh.
    + rewrite (Hno d h Hbody Hrt' Hh). run_cell. by destruct (truthy _).
    + cbn [truthy]. run_cell. by destruct (truthy _).
  - destruct (assoc "stdout" d); run_cell; done.
  - done.
Qed.

(** X11.  The cell touches the file system in one case only: if files
    or directories differ after the run, then the engine replied with a
    good status and a JSON object whose report_type is 'html' and whose
    html_content is truthy. *)
Theorem report_written_only_for_html v w :
  files (run_backtest v w).2 ≠ files w \/ dirs (run_backtest v w).2 ≠ dirs w ->
  exists payload resp d h,
    add_custom_weights v w = (Ok payload, w) /\
    server w (backtest_request v payload) = Replied resp /\
    (status_code resp < 400 \/ 600 <= status_code resp)%Z /\
    json_body resp = Some (PDict d) /\
    assoc "report_type" d = Some (PStr "html") /\
    assoc "html_content" d = Some h /\ truthy h = true.
Proof.
  intros Hchanged.
  assert (Hkeep : same_fs w (run_backtest v w).2 -> False).
  { intros [Hf Hd]. destruct Hchanged; contradiction. }
  clear Hchanged.
  destruct (add_custom_weights v w) as [[payload|e] w1] eqn:Hp.
  all: pose proof (add_custom_weights_world v w _ w1 Hp) as ->.
  2:{ exfalso. apply Hkeep. unfold run_backtest, mbind, cell_bind, bind.
      rewrite Hp. by split. }
  exists payload.
  destruct (server w (backtest_request v payload)) as [resp| |] eqn:Hsrv.
  2,3: exfalso; apply Hkeep;
       unfold run_backtest, mbind, cell_bind, bind, try_except, send;
       rewrite Hp; cbv zeta; rewrite Hsrv; split; reflexivity.
  exists resp.
  destruct (decide (status_code resp < 400 \/ 600 <= status_code resp)%Z) as [Hst|Hst].
  2:{ exfalso. apply Hkeep.
      unfold run_backtest, mbind, cell_bind, bind, try_except, send, raise_for_status.
      rewrite Hp. cbv zeta. rewrite Hsrv.
      replace ((400 <=? status_code resp)%Z && (status_code resp <? 600)%Z)
        with true by lia.
      unfold raise. cbv beta iota. run_cell.
      destruct (json_body resp); split; reflexivity. }
  destruct (run_backtest_fs v w payload resp Hp Hsrv Hst)
    as (w2 & _ & _ & _ & _ & Hf2 & Hd2 & Hfs).
  destruct (json_body resp) as [[| | | | | | |d]|] eqn:Hbody.
  1-7,9: exfalso; apply Hkeep; etrans; [|exact Hfs];
         etrans; [|apply handle_result_same_fs; intros ? ? ?; congruence];
         by split.
  exists d.
  destruct (assoc "report_type" d) as [rt|] eqn:Hrt.
  2:{ exfalso. apply Hkeep. etrans; [|exact Hfs].
      etrans; [|apply handle_result_same_fs; intros ? ? ? ?; congruence]. by split. }
  destruct (eq_str rt "html") eqn:Heq; [apply eq_str_true in Heq as ->|].
  2:{ assert (Hne : rt ≠ PStr "html") by (intros ->; discriminate). exfalso. apply Hkeep. etrans; [|exact Hfs].
      etrans; [|apply handle_result_same_fs; intros ? ? ? ?; congruence]. by split. }
  destruct (assoc "html_content" d) as [h|] eqn:Hh.
  2:{ exfalso. apply Hkeep. etrans; [|exact Hfs].
      etrans; [|apply handle_result_same_fs; intros ? ? ? ? ?; congruence]. by split. }
  exists h. destruct (truthy h) eqn:Ht; [done|].
  exfalso. apply Hkeep. etrans; [|exact Hfs].
  etrans; [|apply handle_result_same_fs; intros ? ? ? ? ?; congruence]. by split.
Qed.


(** After a reply with a good status the cell is the two handlers around
    [handle_result], run on the world with the request sent and the
    status line printed. *)
Lemma run_backtest_good v w payload resp :
  add_custom_weights v w = (Ok payload, w) ->
  server w (backtest_request v payload) = Replied resp ->
  (status_code resp < 400 \/ 600 <= status_code resp)%Z ->
  run_backtest v w =
    try_except (try_except (handle_result v resp) (on_decode_error resp))
      (on_request_error (req_url (backtest_request v payload)))
      (set_printed
         (fun p => p ++ [[FStr nl; FStr "--- Backtest execution successful (Status Code: ";
                          FInt (status_code resp); FStr ") ---"]])
         (set_sent (fun s => s ++ [backtest_request v payload]) w)).
Proof.
  intros Hp Hsrv Hst.
  unfold run_backtest, mbind at 1, cell_bind at 1, bind at 1. rewrite Hp. cbv zeta.
  unfold try_except at 1. unfold mbind at 1, cell_bind at 1, bind at 1, send.
  rewrite Hsrv. unfold mbind at 1, cell_bind at 1, bind at 1, raise_for_status.
  replace ((400 <=? status_code resp)%Z && (status_code resp <? 600)%Z)
    with false by lia.
  unfold ret at 1. unfold mbind at 1, cell_bind at 1, bind at 1, print at 1.
  reflexivity.
Qed.

(** X12.  A report that cannot be written does not stop the cell: the
    write error is caught, no file appears, the error and the first 1000
    characters of the report are printed, the logs are still printed, and
    the cell returns normally. *)
Theorem failed_report_write_is_caught v w payload resp d html :
  add_custom_weights v w = (Ok payload, w) ->
  server w (backtest_request v payload) = Replied resp ->
  (status_code resp < 400 \/ 600 <= status_code resp)%Z ->
  json_body resp = Some (PDict d) ->
  assoc "report_type" d = Some (PStr "html") ->
  assoc "html_content" d = Some (PStr html) -> html ≠ "" ->
  (present w (path v) = false -> can_mkdir w (path v) = true) ->
  can_write w (report_filename v (now w)) = false ->
  exists w' logs,
    run_backtest v w = (Ok tt, w') /\
    files w' = files w /\
    [FStr "ERROR: Failed to save received HTML report: ";
     FExn (OSError (report_filename v (now w)))] ∈ printed w' /\
    [FStr (substring 0 1000 html ++ "...")%string] ∈ printed w' /\
    get (PDict d) "logs" (PStr "No stderr logs received.") = Ok logs /\
    [FVal logs] ∈ printed w'.
Proof.
  intros Hp Hsrv Hst Hbody Hrt Hhtml Hne Hmk Hwr.
  rewrite (run_backtest_good v w payload resp Hp Hsrv Hst).
  unfold handle_result, response_json. rewrite Hbody. run_cell.
  unfold get. rewrite Hrt, Hhtml. cbv beta iota.
  replace (eq_str (PStr "html") "html") with true by reflexivity.
  run_cell. rewrite (truthy_nonempty html Hne).
  unfold save_report. run_cell.
  change (present (set_printed _ (set_printed _ (set_sent _ w))) (path v))
    with (present w (path v)).
  destruct (present w (path v)) eqn:Hex; run_cell.
  - rewrite Hwr. unfold snippet. run_cell.
    destruct (truthy _); run_cell; eexists _, _;
      (split; [reflexivity|]); cbn [files printed set_printed set_files set_sent];
      rewrite !elem_of_app, !list_elem_of_singleton; tauto.
  - rewrite Hmk by done. run_cell. rewrite Hwr. unfold snippet. run_cell.
    destruct (truthy _); run_cell; eexists _, _;
      (split; [reflexivity|]); cbn [files printed set_printed set_files set_sent set_dirs];
      rewrite !elem_of_app, !list_elem_of_singleton; tauto.
Qed.


(** X13.  When html_content is truthy but not text (a list, a number),
    the report file has already been opened when the write fails: an empty
    file is left behind, and the cell ends in its "unexpected error"
    branch with a TypeError. *)
Theorem non_text_report_leaves_empty_file v w payload resp d h :
  add_custom_weights v w = (Ok payload, w) ->
  server w (backtest_request v payload) = Replied resp ->
  (status_code resp < 400 \/ 600 <= status_code resp)%Z ->
  json_body resp = Some (PDict d) ->
  assoc "report_type" d = Some (PStr "html") ->
  assoc "html_content" d = Some h -> truthy h = true ->
  (forall s, h ≠ PStr s) ->
  (present w (path v) = false -> can_mkdir w (path v) = true) ->
  can_write w (report_filename v (now w)) = true ->
  exists w',
    run_backtest v w = (Ok tt, w') /\
    files w' = <[report_filename v (now w) := ""]> (files w) /\
    [FStr "ERROR: Failed to save received HTML report: "; FExn TypeError] ∈ printed w' /\
    [FStr "Error type: "; FExn TypeError; FStr ", Content: "; FExn TypeError]
      ∈ printed w'.
Proof.
  intros Hp Hsrv Hst Hbody Hrt Hhtml Htruthy Hnostr Hmk Hwr.
  rewrite (run_backtest_good v w payload resp Hp Hsrv Hst).
  unfold handle_result, response_json. rewrite Hbody. run_cell.
  unfold get. rewrite Hrt, Hhtml. cbv beta iota.
  replace (eq_str (PStr "html") "html") with true by reflexivity.
  run_cell. rewrite Htruthy.
  assert (Hs : snippet h = Raise TypeError).
  { destruct h; try reflexivity. by destruct (Hnostr s). }
  unfold save_report. run_cell. rewrite Hs.
  change (present (set_printed _ (set_printed _ (set_sent _ w))) (path v))
    with (present w (path v)).
  destruct (present w (path v)) eqn:Hex; run_cell;
    rewrite ?Hmk by done; run_cell; rewrite Hwr;
    (destruct h; [..|by destruct (Hnostr s)| | |]);
    run_cell; (eexists; split; [reflexivity|]);
    cbn [files printed set_printed set_files set_sent set_dirs];
    rewrite !elem_of_app, !list_elem_of_singleton; tauto.
Qed.


Lemma run_backtest_returns_after_one_request_witness :
  let v := Samples.backtest_vars (config_cell_params (PInt 72)) Samples.weights_1 in
  let w := Samples.world (fun _ => TimedOut) ∅ in
  exists w' payload,
    run_backtest v w = (Ok tt, w') /\
    sent w' = sent w ++ [backtest_request v payload].
Proof.
  intros v w.
  exact (run_backtest_returns_after_one_request v w (fun _ => eq_refl)).
Defined.

Lemma custom_weights_only_when_custom_witness :
  let v := Samples.backtest_vars_equal Samples.weights_1 in
  let w := Samples.world (Samples.engine (PDict Samples.html_reply)) ∅ in
  assoc "custom_weights" (request_payload v) = None /\
  run_backtest (with_custom_weights Samples.weights_097 v) w = run_backtest v w.
Proof.
  intros v w.
  destruct (custom_weights_only_when_custom v w (request_payload v) w
              Samples.weights_097 eq_refl) as [Hkey Hsame].
  split; [exact Hkey|]. apply Hsame. discriminate.
Defined.

Lemma report_written_only_for_html_witness :
  let v := Samples.backtest_vars (config_cell_params (PInt 72)) Samples.weights_1 in
  let w := Samples.world (Samples.engine (PDict Samples.html_reply)) ∅ in
  exists payload resp d h,
    add_custom_weights v w = (Ok payload, w) /\
    server w (backtest_request v payload) = Replied resp /\
    (status_code resp < 400 \/ 600 <= status_code resp)%Z /\
    json_body resp = Some (PDict d) /\
    assoc "report_type" d = Some (PStr "html") /\
    assoc "html_content" d = Some h /\ truthy h = true.
Proof.
  intros v w. apply (report_written_only_for_html v w).
  left. intros Heq.
  apply (f_equal (fun m => m !! report_filename v (now w))) in Heq.
  vm_compute in Heq. discriminate Heq.
Defined.

Lemma failed_report_write_is_caught_witness :
  let v := Samples.backtest_vars (config_cell_params (PInt 72)) Samples.weights_1 in
  let w := Samples.read_only_world (Samples.engine (PDict Samples.html_reply)) in
  exists w' logs,
    run_backtest v w = (Ok tt, w') /\
    files w' = files w /\
    [FStr "ERROR: Failed to save received HTML report: ";
     FExn (OSError (report_filename v (now w)))] ∈ printed w' /\
    [FStr (substring 0 1000 "<html>report</html>" ++ "...")%string] ∈ printed w' /\
    get (PDict Samples.html_reply) "logs" (PStr "No stderr logs received.") = Ok logs /\
    [FVal logs] ∈ printed w'.
Proof.
  intros v w.
  apply (failed_report_write_is_caught v w
           (request_payload v ++ [("custom_weights", Samples.weights_1)])
           {| status_code := 200; json_body := Some (PDict Samples.html_reply);
              text := ""; content_type := Some "application/json" |}
           Samples.html_reply "<html>report</html>");
    try reflexivity; try done.
  left. reflexivity.
Defined.

Lemma non_text_report_leaves_empty_file_witness :
  let v := Samples.backtest_vars (config_cell_params (PInt 72)) Samples.weights_1 in
  let w := Samples.world (Samples.engine (PDict Samples.list_html_reply)) ∅ in
  exists w',
    run_backtest v w = (Ok tt, w') /\
    files w' = <[report_filename v (now w) := ""]> (files w) /\
    [FStr "ERROR: Failed to save received HTML report: "; FExn TypeError] ∈ printed w' /\
    [FStr "Error type: "; FExn TypeError; FStr ", Content: "; FExn TypeError]
      ∈ printed w'.
Proof.
  intros v w.
  apply (non_text_report_leaves_empty_file v w
           (request_payload v ++ [("custom_weights", Samples.weights_1)])
           {| status_code := 200; json_body := Some (PDict Samples.list_html_reply);
              text := ""; content_type := Some "application/json" |}
           Samples.list_html_reply (PList [PStr "<html>report</html>"]));
    try reflexivity; try done.
  left. reflexivity.
Defined.

End BacktestExtras.

(** ** The live-trading cells: session, termination, positions *)

Module TradeExtras.
Import NotebookFacts Trade TradeFacts.

Lemma json_item_item resp body keys :
  json_body resp = Some body -> json_item resp keys = lift (item body keys).
Proof. apply json_item_path. Qed.

Lemma run_system_same_sent_after (response : Response) :
  stable same_sent
    (try_except
       (sid ← json_item response ["session_id"];
        assign_session_id sid;;
        sid' ← json_item response ["session_id"];
        print [FStr "session id :"; FVal sid'];;
        dashboard ← json_item response ["dashboard_url"];
        print [FStr "dashboard :"; FVal dashboard])
       (fun _ =>
          msg ← json_item response ["message"; "message"];
          print [FStr "Error :"; FVal msg];;
          sid ← json_item response ["message"; "session_id"];
          assign_session_id sid;;
          print [FStr "session id :"; FVal sid];;
          dashboard ← json_item response ["message"; "dashboard_url"];
          print [FStr "dashboard :"; FVal dashboard])).
Proof.
  assert (Hj : forall keys, stable same_sent (json_item response keys)).
  { intros keys. unfold json_item.
    pose proof (response_json_stable same_sent response). solve_stable. }
  assert (Ha : forall x, stable same_sent (assign_session_id x)) by (by intros x w).
  solve_stable.
Qed.

(** X14.  The run-system cell returns normally exactly when the engine
    replied with JSON that has the session identifier and the dashboard
    URL at the top level, or the error text, the identifier and the URL
    inside "message"; on any other reply, and when the engine cannot be
    reached, the cell raises. *)
Theorem run_system_returns_iff v w :
  (exists w', run_system v w = (Ok tt, w')) <->
  exists resp body,
    server w (run_system_request v) = Replied resp /\
    json_body resp = Some body /\
    ((exists sid dashboard,
         item body ["session_id"] = Ok sid /\
         item body ["dashboard_url"] = Ok dashboard) \/
     (exists msg sid dashboard,
         item body ["message"; "message"] = Ok msg /\
         item body ["message"; "session_id"] = Ok sid /\
         item body ["message"; "dashboard_url"] = Ok dashboard)).
Proof.
  unfold run_system. unfold mbind at 1, cell_bind at 1, bind at 1, send.
  destruct (server w (run_system_request v)) as [resp| |] eqn:Hsrv.
  2,3: split; [intros [w' H]; discriminate|intros (? & ? & ? & _); discriminate].
  destruct (json_body resp) as [body|] eqn:Hbody.
  2:{ split; [|intros (? & ? & [= <-] & ? & _); congruence].
      intros [w' H]. exfalso. revert H.
      unfold json_item, response_json. rewrite Hbody. run_cell. discriminate. }
  rewrite !(json_item_item resp body) by done.
  split.
  - intros [w' H]. exists resp, body. split; [done|]. split; [done|].
    revert H. run_cell. unfold assign_session_id.
    destruct (item body ["session_id"]) as [sid|e1]; run_cell.
    + destruct (item body ["dashboard_url"]) as [dash|e2]; run_cell; [eauto|].
      destruct (item body ["message"; "message"]) as [msg|e3]; run_cell; [|discriminate].
      destruct (item body ["message"; "session_id"]) as [sid2|e4]; run_cell; [|discriminate].
      destruct (item body ["message"; "dashboard_url"]) as [dash2|e5]; run_cell;
        [|discriminate]. eauto 10.
    + destruct (item body ["message"; "message"]) as [msg|e3]; run_cell; [|discriminate].
      destruct (item body ["message"; "session_id"]) as [sid2|e4]; run_cell; [|discriminate].
      destruct (item body ["message"; "dashboard_url"]) as [dash2|e5]; run_cell;
        [|discriminate]. eauto 10.
  - intros (resp' & body' & [= <-] & Hb & Hshape). assert (body' = body) as -> by congruence.
    run_cell. unfold assign_session_id.
    destruct Hshape as [(sid & dash & Hs & Hd)|(msg & sid & dash & Hm & Hs & Hd)].
    + rewrite Hs. run_cell. rewrite Hd. run_cell. eauto.
    + rewrite Hm, Hs, Hd.
      destruct (item body ["session_id"]) as [sid1|e1]; run_cell.
      * destruct (item body ["dashboard_url"]) as [dash1|e2]; run_cell; eauto.
      * eauto.
Qed.


(** X15.  Whenever the cell returns normally, [session_id] holds an
    identifier read from the reply (top level or wrapper), and the
    identifier and the dashboard URL are the last two lines printed. *)
Theorem run_system_return_sets_session v w w' :
  run_system v w = (Ok tt, w') ->
  exists resp body sid dashboard pre,
    server w (run_system_request v) = Replied resp /\
    json_body resp = Some body /\
    session_id w' = Some sid /\
    ((item body ["session_id"] = Ok sid /\ item body ["dashboard_url"] = Ok dashboard) \/
     (item body ["message"; "session_id"] = Ok sid /\
      item body ["message"; "dashboard_url"] = Ok dashboard)) /\
    printed w' = printed w ++ pre ++ [[FStr "session id :"; FVal sid];
                                      [FStr "dashboard :"; FVal dashboard]].
Proof.
  unfold run_system. unfold mbind at 1, cell_bind at 1, bind at 1, send.
  destruct (server w (run_system_request v)) as [resp| |] eqn:Hsrv; [|discriminate..].
  destruct (json_body resp) as [body|] eqn:Hbody.
  2:{ unfold json_item, response_json. rewrite Hbody. run_cell. discriminate. }
  rewrite !(json_item_item resp body) by done.
  intros H. exists resp, body. revert H. run_cell. unfold assign_session_id.
  destruct (item body ["session_id"]) as [sid|e1]; run_cell.
  - destruct (item body ["dashboard_url"]) as [dash|e2]; run_cell.
    + intros [= <-]. exists sid, dash, []. cbn. rewrite <- !app_assoc. auto 10.
    + destruct (item body ["message"; "message"]) as [msg|e3]; run_cell; [|discriminate].
      destruct (item body ["message"; "session_id"]) as [sid2|e4]; run_cell; [|discriminate].
      destruct (item body ["message"; "dashboard_url"]) as [dash2|e5]; run_cell;
        [|discriminate].
      intros [= <-]. exists sid2, dash2, [[FStr "session id :"; FVal sid];
                                          [FStr "Error :"; FVal msg]].
      cbn. rewrite <- !app_assoc. auto 10.
  - destruct (item body ["message"; "message"]) as [msg|e3]; run_cell; [|discriminate].
    destruct (item body ["message"; "session_id"]) as [sid2|e4]; run_cell; [|discriminate].
    destruct (item body ["message"; "dashboard_url"]) as [dash2|e5]; run_cell;
      [|discriminate].
    intros [= <-]. exists sid2, dash2, [[FStr "Error :"; FVal msg]].
    cbn. rewrite <- !app_assoc. auto 10.
Qed.

(** X16.  A reply with a top-level session identifier but no dashboard
    URL and no error wrapper makes the cell raise, yet the identifier has
    already been assigned to [session_id] and printed. *)
Theorem run_system_half_reply v w resp body sid e e' :
  server w (run_system_request v) = Replied resp ->
  json_body resp = Some body ->
  item body ["session_id"] = Ok sid ->
  item body ["dashboard_url"] = Raise e ->
  item body ["message"; "message"] = Raise e' ->
  exists w',
    run_system v w = (Raise e', w') /\
    session_id w' = Some sid /\
    printed w' = printed w ++ [[FStr "session id :"; FVal sid]].
Proof.
  intros Hsrv Hbody Hs Hd Hm.
  unfold run_system. unfold mbind at 1, cell_bind at 1, bind at 1, send.
  rewrite Hsrv. rewrite !(json_item_item resp body) by done.
  run_cell. unfold assign_session_id. rewrite Hs. run_cell. rewrite Hd, Hm.
  eexists. split; [reflexivity|]. by cbn.
Qed.

Lemma run_system_sent v w :
  sent (run_system v w).2 = sent w ++ [run_system_request v].
Proof.
  unfold run_system. apply sent_send_then.
  intros x. apply run_system_same_sent_after.
Qed.

(** X17.  Whatever the engine answers, the run-system cell makes exactly
    one request (no retry) and leaves the files as they are. *)
Theorem run_system_sends_once v w :
  sent (run_system v w).2 = sent w ++ [run_system_request v] /\
  files (run_system v w).2 = files w.
Proof.
  split; [apply run_system_sent|].
  assert (Hfs : stable same_fs (run_system v)).
  { assert (Hsend : forall r, stable same_fs (send r))
      by (intros r w0; unfold send; by destruct (server w0 r)).
    assert (Hj : forall x keys, stable same_fs (json_item x keys)).
    { intros x keys. unfold json_item.
      pose proof (response_json_stable same_fs x). solve_stable. }
    assert (Ha : forall x, stable same_fs (assign_session_id x)) by (by intros x w0).
    unfold run_system. solve_stable. }
  apply (Hfs w).
Qed.


Lemma terminate_same_sent_after (x : Response) :
  stable same_sent (body ← response_json x; print [FVal body]).
Proof. pose proof (response_json_stable same_sent x). solve_stable. Qed.

Lemma terminate_sent v sid s w :
  fstr sid = Ok s ->
  sent (terminate v sid w).2 = sent w ++ [terminate_request v s].
Proof.
  intros Hs. unfold terminate. rewrite Hs.
  unfold mbind at 1, cell_bind at 1, bind at 1, lift.
  apply sent_send_then. intros x. by apply terminate_same_sent_after.
Qed.

Lemma terminate_keeps_session v sid w :
  session_id (terminate v sid w).2 = session_id w /\
  files (terminate v sid w).2 = files w.
Proof.
  unfold terminate. run_cell. destruct (fstr sid); [|done]. run_cell.
  destruct (server w _); [|done..].
  destruct (json_body r); done.
Qed.

(** X18.  Run then terminate: after a reply of either shape with a text
    identifier, the terminate cell asks the engine to end that very
    session: its request carries the identifier as the session_id
    parameter, and the two requests are all that was sent. *)
Theorem terminate_uses_extracted_session v w resp body s dashboard :
  server w (run_system_request v) = Replied resp ->
  json_body resp = Some body ->
  run_reply body (PStr s) dashboard ->
  exists w1,
    run_system v w = (Ok tt, w1) /\
    session_id w1 = Some (PStr s) /\
    sent (terminate v (PStr s) w1).2 =
      sent w ++ [run_system_request v; terminate_request v s] /\
    req_params (terminate_request v s) = [("session_id", s)].
Proof.
  intros Hsrv Hbody Hshape.
  pose proof (run_system_sent v w) as Hsent.
  assert (Hrun : exists w1, run_system v w = (Ok tt, w1) /\ session_id w1 = Some (PStr s)).
  { unfold run_system. unfold mbind at 1, cell_bind at 1, bind at 1, send.
    rewrite Hsrv. rewrite !(json_item_path resp body) by done.
    inversion Hshape as [d sid dash Hs Hd|d inner msg sid dash Hno Hm Hmm Hs Hd]; subst.
    - run_cell. cbn [foldl getitem]. unfold mbind, result_bind. cbn [getitem].
      rewrite Hs, Hd. unfold assign_session_id. run_cell. eauto.
    - run_cell. cbn [foldl getitem]. unfold mbind, result_bind. cbn [getitem].
      rewrite Hno, Hm. cbn [getitem]. rewrite Hmm, Hs, Hd.
      unfold assign_session_id. run_cell. eauto. }
  destruct Hrun as (w1 & Hrun & Hsid). exists w1.
  rewrite Hrun in Hsent. cbn [snd] in Hsent.
  split; [done|]. split; [done|]. split; [|done].
  rewrite (terminate_sent v (PStr s) s w1 eq_refl), Hsent, <- app_assoc. done.
Qed.

(** X19.  The terminate cell keeps no local state: it does not clear
    [session_id] or touch the files, so running it again sends the same
    request again. *)
Theorem terminate_again_sends_again v sid s w :
  fstr sid = Ok s ->
  let w1 := (terminate v sid w).2 in
  let w2 := (terminate v sid w1).2 in
  sent w2 = sent w ++ [terminate_request v s; terminate_request v s] /\
  session_id w2 = session_id w /\
  files w2 = files w.
Proof.
  intros Hs w1 w2. unfold w2, w1.
  rewrite !(terminate_sent v sid s) by done.
  destruct (terminate_keeps_session v sid w) as [Hs1 Hf1].
  destruct (terminate_keeps_session v sid (terminate v sid w).2) as [Hs2 Hf2].
  rewrite <- app_assoc. split; [done|]. split; congruence.
Qed.

(** *** Positions *)

Lemma from_records_empty_iff recs :
  empty (from_records recs) = true <-> Forall (fun r => r = []) recs.
Proof.
  split.
  - intros He. apply Forall_forall. intros r Hr.
    destruct r as [|[k x] r']; [done|]. exfalso.
    assert (Hk : k ∈ columns (from_records recs)).
    { apply from_records_columns. exists ((k, x) :: r'). split; [done|]. by left. }
    unfold empty in He.
    destruct (columns (from_records recs)) as [|c cs]; [by inversion Hk|].
    destruct (rows (from_records recs)) as [|row rs] eqn:Hrows; [|done].
    unfold from_records in Hrows. cbn [rows] in Hrows.
    apply fmap_nil_inv in Hrows. subst recs. by inversion Hr.
  - intros Hall. unfold empty, from_records. cbn [columns rows].
    replace (mjoin ((fun r : list (string * pyval) => fst <$> r) <$> recs))
      with (@nil string); [done|].
    induction Hall as [|r recs -> _ IH]; [done|]. cbn. exact IH.
Qed.

(** X20.  For any list of records under "data", [all_positions] prints
    'Everything has been liquidated' exactly when no record has a field:
    for the empty list, and also for a list of field-less records, whose
    frame pandas counts as empty. *)
Theorem all_positions_message_iff_no_fields v w user_key productType marginCoin
    resp body recs :
  server w (positions_request v productType marginCoin) = Replied resp ->
  json_body resp = Some body ->
  getitem body "data" = Ok (PList (PDict <$> recs)) ->
  exists w',
    all_positions v user_key productType marginCoin w = (Ok (from_records recs), w') /\
    ((printed w' = printed w ++ [[FStr "Everything has been liquidated"]] /\
      Forall (fun r => r = []) recs) \/
     (printed w' = printed w /\ Exists (fun r => r <> []) recs)).
Proof.
  intros Hsrv Hbody Hdata.
  unfold all_positions. unfold mbind at 1, cell_bind at 1, bind at 1, send.
  rewrite Hsrv. rewrite (json_item_path resp body) by done.
  cbn [foldl]. unfold mbind at 4, result_bind.
  rewrite Hdata. run_cell. unfold DataFrame_of. rewrite mapM_as_record.
  destruct (empty (from_records recs)) eqn:He; run_cell.
  - eexists. split; [reflexivity|]. left. split; [done|].
    by apply from_records_empty_iff.
  - eexists. split; [reflexivity|]. right. split; [done|].
    apply not_Forall_Exists; [intros []; [by left|by right]|].
    intros Hall%from_records_empty_iff. congruence.
Qed.

(** X21.  [all_positions] catches nothing: a timeout, a body that is not
    JSON and a reply without "data" each raise after the one request, with
    nothing printed; a null "data" gives the empty frame and the
    liquidation message. *)
Theorem all_positions_does_not_catch v w user_key productType marginCoin :
  let request := positions_request v productType marginCoin in
  let w1 := set_sent (fun s => s ++ [request]) w in
  (server w request = TimedOut ->
   all_positions v user_key productType marginCoin w = (Raise Timeout, w1)) /\
  (forall resp, server w request = Replied resp -> json_body resp = None ->
   all_positions v user_key productType marginCoin w = (Raise JSONDecodeError, w1)) /\
  (forall resp d, server w request = Replied resp -> json_body resp = Some (PDict d) ->
   assoc "data" d = None ->
   all_positions v user_key productType marginCoin w = (Raise (KeyError "data"), w1)) /\
  (forall resp d, server w request = Replied resp -> json_body resp = Some (PDict d) ->
   assoc "data" d = Some PNone ->
   all_positions v user_key productType marginCoin w =
     (Ok {| columns := []; rows := [] |},
      set_printed (fun p => p ++ [[FStr "Everything has been liquidated"]]) w1)).
Proof.
  intros request w1. subst request w1.
  split; [|split; [|split]].
  - intros H. unfold all_positions, mbind at 1, cell_bind at 1, bind at 1, send.
    rewrite H. reflexivity.
  - intros resp H Hb.
    unfold all_positions, mbind at 1, cell_bind at 1, bind at 1, send.
    rewrite H. unfold json_item, response_json. rewrite Hb. reflexivity.
  - intros resp d H Hb Hd.
    unfold all_positions, mbind at 1, cell_bind at 1, bind at 1, send.
    rewrite H, (json_item_path resp (PDict d)) by done.
    cbn [foldl]. unfold mbind at 4, result_bind. cbn [getitem]. rewrite Hd. reflexivity.
  - intros resp d H Hb Hd.
    unfold all_positions, mbind at 1, cell_bind at 1, bind at 1, send.
    rewrite H, (json_item_path resp (PDict d)) by done.
    cbn [foldl]. unfold mbind at 4, result_bind. cbn [getitem]. rewrite Hd. reflexivity.
Qed.

(** X22.  The upload-config cell posts the file's content unchanged and
    raises FileNotFoundError before any request when the file is missing.
    The file is looked up under the NeoMatrixAI folder as
    <strategy_name>_config.py, unless the strategy name starts with '/',
    in which case [os.path.join] drops the folder. *)
Theorem upload_config_posts_file v w :
  (forall content,
      files w !! config_file_path v = Some content ->
      sent (upload_config v w).2 = sent w ++ [upload_config_request v content]) /\
  (files w !! config_file_path v = None ->
   upload_config v w = (Raise (FileNotFoundError (config_file_path v)), w)) /\
  (startswith_sep (strategy_name v) = false ->
   config_file_path v =
     ("/content/drive/MyDrive/NeoMatrixAI/" ++ strategy_name v ++ "_config.py")%string) /\
  (startswith_sep (strategy_name v) = true ->
   config_file_path v = (strategy_name v ++ "_config.py")%string).
Proof.
  split; [|split; [|split]].
  - intros content Hf. by apply upload_config_unchecked.
  - intros Hf. unfold upload_config, mbind, cell_bind, bind, read_file. by rewrite Hf.
  - intros Hs. unfold config_file_path, os_path_join.
    destruct (strategy_name v) as [|c n]; [reflexivity|].
    simpl in *. rewrite Hs. reflexivity.
  - intros Hs. unfold config_file_path, os_path_join.
    destruct (strategy_name v) as [|c n]; [discriminate|].
    simpl in *. rewrite Hs. reflexivity.
Qed.


Lemma run_system_return_sets_session_witness :
  let w := Samples.world (Samples.engine Samples.nested_reply) ∅ in
  exists resp body sid dashboard pre,
    server w (run_system_request Samples.trade_vars) = Replied resp /\
    json_body resp = Some body /\
    session_id (run_system Samples.trade_vars w).2 = Some sid /\
    ((item body ["session_id"] = Ok sid /\ item body ["dashboard_url"] = Ok dashboard) \/
     (item body ["message"; "session_id"] = Ok sid /\
      item body ["message"; "dashboard_url"] = Ok dashboard)) /\
    printed (run_system Samples.trade_vars w).2 =
      printed w ++ pre ++ [[FStr "session id :"; FVal sid];
                           [FStr "dashboard :"; FVal dashboard]].
Proof.
  intros w.
  apply (run_system_return_sets_session Samples.trade_vars w).
  reflexivity.
Defined.

Lemma run_system_half_reply_witness :
  let w := Samples.world (Samples.engine Samples.half_reply) ∅ in
  exists w',
    run_system Samples.trade_vars w = (Raise (KeyError "message"), w') /\
    session_id w' = Some (PStr "session-1") /\
    printed w' = printed w ++ [[FStr "session id :"; FVal (PStr "session-1")]].
Proof.
  intros w.
  apply (run_system_half_reply Samples.trade_vars w
           {| status_code := 200; json_body := Some Samples.half_reply;
              text := ""; content_type := Some "application/json" |}
           Samples.half_reply (PStr "session-1") (KeyError "dashboard_url")
           (KeyError "message")); reflexivity.
Defined.

Lemma terminate_uses_extracted_session_witness :
  let w := Samples.world (Samples.engine Samples.nested_reply) ∅ in
  exists w1,
    run_system Samples.trade_vars w = (Ok tt, w1) /\
    session_id w1 = Some (PStr "session-1") /\
    sent (terminate Samples.trade_vars (PStr "session-1") w1).2 =
      sent w ++ [run_system_request Samples.trade_vars;
                 terminate_request Samples.trade_vars "session-1"] /\
    req_params (terminate_request Samples.trade_vars "session-1") =
      [("session_id", "session-1")].
Proof.
  intros w.
  apply (terminate_uses_extracted_session Samples.trade_vars w
           {| status_code := 200; json_body := Some Samples.nested_reply;
              text := ""; content_type := Some "application/json" |}
           Samples.nested_reply "session-1" (PStr "https://dashboard/session-1"));
    [reflexivity|reflexivity|].
  eapply reply_nested; reflexivity.
Defined.

Lemma terminate_again_sends_again_witness :
  let w := Samples.world (Samples.engine (PDict [("status", PInt 200)])) ∅ in
  let w1 := (terminate Samples.trade_vars (PStr "session-1") w).2 in
  let w2 := (terminate Samples.trade_vars (PStr "session-1") w1).2 in
  sent w2 = [terminate_request Samples.trade_vars "session-1";
             terminate_request Samples.trade_vars "session-1"] /\
  session_id w2 = None /\
  files w2 = ∅.
Proof.
  intros w.
  exact (terminate_again_sends_again Samples.trade_vars (PStr "session-1")
           "session-1" w eq_refl).
Defined.

Lemma all_positions_message_iff_no_fields_witness :
  let w := Samples.world (Samples.engine (PDict [("data", PList [PDict []])])) ∅ in
  exists w',
    all_positions Samples.trade_vars PNone "susdt-futures" "susdt" w =
      (Ok (from_records [[]]), w') /\
    ((printed w' = printed w ++ [[FStr "Everything has been liquidated"]] /\
      Forall (fun r => r = []) [[] : list (string * pyval)]) \/
     (printed w' = printed w /\ Exists (fun r => r <> []) [[] : list (string * pyval)])).
Proof.
  intros w.
  apply (all_positions_message_iff_no_fields Samples.trade_vars w PNone
           "susdt-futures" "susdt"
           {| status_code := 200; json_body := Some (PDict [("data", PList [PDict []])]);
              text := ""; content_type := Some "application/json" |}
           (PDict [("data", PList [PDict []])]) [[]]); reflexivity.
Defined.

Lemma all_positions_does_not_catch_witness :
  let w := Samples.world (Samples.engine (PDict [("status", PInt 500)])) ∅ in
  all_positions Samples.trade_vars PNone "susdt-futures" "susdt" w =
    (Raise (KeyError "data"),
     set_sent (fun s => s ++ [positions_request Samples.trade_vars "susdt-futures" "susdt"]) w).
Proof.
  intros w.
  apply (all_positions_does_not_catch Samples.trade_vars w PNone "susdt-futures" "susdt")
    with (resp := {| status_code := 200; json_body := Some (PDict [("status", PInt 500)]);
                     text := ""; content_type := Some "application/json" |})
         (d := [("status", PInt 500)]); reflexivity.
Defined.

Lemma upload_config_posts_file_witness :
  let w := Samples.world (Samples.engine (PDict [("status", PInt 200)])) ∅ in
  upload_config Samples.trade_vars w =
    (Raise (FileNotFoundError
              "/content/drive/MyDrive/NeoMatrixAI/multi_period_momentum_config.py"), w).
Proof.
  intros w.
  apply (upload_config_posts_file Samples.trade_vars w). reflexivity.
Defined.

End TradeExtras.
